(** * Careers backend: serialization, job lookup, applications and seeding

    A shallow embedding of [src/main.py] and [src/schemas.py].

    - Python values are the inductive type [value]; a [dict] with string
      keys is a [gmap string value].
    - [bson.ObjectId], [pymongo] and [pydantic] are libraries the sources
      import: the part of their behaviour the handlers rely on is modelled
      in the modules [bson], [pymongo] and [pydantic].
    - [database.py] is not among the sources: its functions
      [create_document] and [get_documents] are modelled from the
      specification, and marked so; its [db] is a pymongo [Database] or
      [None], as the handlers use it.
    - Handlers run in a state-and-exception monad over the process-wide
      [db] handle; a raised exception keeps the store as it was when the
      exception was raised, as in Python. *)

From Stdlib Require Import ZArith NArith Ascii String List Lia.
From stdpp Require Import gmap strings list fin_maps.

Set Warnings "-register-all".
#[local] Open Scope string_scope.
#[local] Open Scope list_scope.

(** ** Python str *)

(** A [str] is a sequence of characters; it is kept here as its UTF-8
    text, one [ascii] per byte.  A character starts at every byte that
    is not a continuation byte (the codes 128..191). *)
Definition is_continuation (c : ascii) : bool :=
  let n := N_of_ascii c in ((128 <=? n) && (n <? 192))%N.

(** [len(s)]: the number of characters. *)
Fixpoint len (s : string) : nat :=
  match s with
  | EmptyString => O
  | String c s' => if is_continuation c then len s' else S (len s')
  end.

(** [s[:n]]: the first [n] characters, each with all of its bytes. *)
Fixpoint str_prefix (n : nat) (s : string) : string :=
  match s with
  | EmptyString => EmptyString
  | String c s' =>
      if is_continuation c then String c (str_prefix n s')
      else
        match n with
        | O => EmptyString
        | S n' => String c (str_prefix n' s')
        end
  end.

(** ** bson.ObjectId *)

Module bson.

(** An ObjectId is the bytes it holds ([__id], [binary]).  They are
    twelve when the identifier is generated, built from twelve bytes or
    built from 24 hexadecimal digits; they are fewer when it is built
    from a text of 24 characters some of which are white space, which
    [bytes.fromhex] skips. *)
Definition ObjectId : Type := list Byte.byte.

(** The number of the identifiers of twelve bytes. *)
Definition bound : N := 16 ^ 24.

(** The digit of value [d]: "0".."9" are the codes 48..57 and "a".."f"
    the codes 97..102. *)
Definition hex_char (d : N) : ascii :=
  ascii_of_N (if (d <? 10)%N then 48 + d else 87 + d)%N.

(** The value of a digit, in either case ("A".."F" are the codes
    65..70); [None] for any other character. *)
Definition hex_val (c : ascii) : option N :=
  let n := N_of_ascii c in
  if ((48 <=? n) && (n <=? 57))%N then Some (n - 48)%N
  else if ((97 <=? n) && (n <=? 102))%N then Some (n - 87)%N
  else if ((65 <=? n) && (n <=? 70))%N then Some (n - 55)%N
  else None.

(** ASCII white space: tab, line feed, vertical tab, form feed, carriage
    return (the codes 9..13) and the space. *)
Definition is_space (c : ascii) : bool :=
  let n := N_of_ascii c in (((9 <=? n) && (n <=? 13)) || (n =? 32))%N.

(** The byte of value [n], for [n] below 256. *)
Definition byte_of (n : N) : Byte.byte := default Byte.x00 (Byte.of_N n).

(** [bytes.fromhex(s)]: two hexadecimal digits per byte, white space
    skipped between the bytes; [None] stands for [ValueError], which any
    other character raises, also white space between the two digits of a
    byte or a digit left alone at the end. *)
Fixpoint fromhex (s : string) : option (list Byte.byte) :=
  match s with
  | EmptyString => Some []
  | String c s' =>
      if is_space c then fromhex s'
      else
        match hex_val c, s' with
        | Some top, String c' s'' =>
            match hex_val c' with
            | Some bot =>
                option_map (cons (byte_of (16 * top + bot)%N)) (fromhex s'')
            | None => None
            end
        | _, _ => None
        end
  end.

(** The two lower-case digits of a byte, put before [acc]. *)
Definition hex_byte (b : Byte.byte) (acc : string) : string :=
  String (hex_char (Byte.to_N b / 16)%N)
    (String (hex_char (Byte.to_N b mod 16)%N) acc).

(** [str(oid)]: [binascii.hexlify] of the bytes. *)
Definition to_str (o : ObjectId) : string := fold_right hex_byte "" o.

(** [ObjectId(s)] for a [str]: accepted when [s] has 24 characters and
    [bytes.fromhex] accepts it; [None] stands for [InvalidId]. *)
Definition of_str (s : string) : option ObjectId :=
  if (len s =? 24)%nat then fromhex s else None.

(** [ObjectId(b)] for [bytes]: accepted when [b] has twelve bytes. *)
Definition of_bytes (b : list Byte.byte) : option ObjectId :=
  if (List.length b =? 12)%nat then Some b else None.

(** [a == b]: the same bytes. *)
Fixpoint eqb (a b : ObjectId) : bool :=
  match a, b with
  | [], [] => true
  | x :: a', y :: b' => Byte.eqb x y && eqb a' b'
  | _, _ => false
  end.

(** The [k] least significant bytes of [n], most significant first, put
    before [acc]. *)
Fixpoint to_bytes (k : nat) (n : N) (acc : list Byte.byte) : list Byte.byte :=
  match k with
  | O => acc
  | S k' => to_bytes k' (n / 256)%N (byte_of (n mod 256)%N :: acc)
  end.

(** The identifier whose bytes spell the number [n]: twelve bytes for a
    number below [bound], and these are the identifiers that a store
    hands out; a greater number takes one more byte for each multiple of
    [bound], so that distinct numbers always are distinct identifiers. *)
Definition generated (n : N) : ObjectId :=
  to_bytes (12 + N.to_nat (n / bound)) n [].

(** The number that the bytes of an identifier spell. *)
Definition number (o : ObjectId) : N :=
  fold_left (fun acc x => (256 * acc + Byte.to_N x)%N) o 0%N.

End bson.

(** A store numbers the identifiers it hands out: where an ObjectId is
    expected, a number stands for the identifier that spells it. *)
Coercion bson.generated : N >-> bson.ObjectId.

(** ** Python values *)

Inductive value : Type :=
  | VNone
  | VBool (b : bool)
  | VInt (z : Z)
  | VStr (s : string)
  | VBytes (b : list Byte.byte)
  | VOid (o : bson.ObjectId)
  | VList (l : list value)
  | VDict (m : gmap string value).

(** A document, and in general a [Dict[str, Any]]. *)
Abbreviation Doc := (gmap string value).

(** Truth value of an object, as [if x], [not x] and [x and y] take it.
    An ObjectId defines neither [__bool__] nor [__len__]: it is true. *)
Definition truthy (v : value) : bool :=
  match v with
  | VNone => false
  | VBool b => b
  | VInt z => negb (z =? 0)%Z
  | VStr s => negb (String.length s =? 0)%nat
  | VBytes b => negb (List.length b =? 0)%nat
  | VOid _ => true
  | VList l => negb (List.length l =? 0)%nat
  | VDict m => negb (bool_decide (m = ∅))
  end.

(** [isinstance(v, ObjectId)] *)
Definition is_ObjectId (v : value) : bool :=
  match v with VOid _ => true | _ => false end.

(** [d.get(k)]: the value, or [None] when the key is absent. *)
Definition dict_get (d : Doc) (k : string) : value := default VNone (d !! k).

(** An ObjectId occurs in [v], at any depth. *)
Fixpoint has_ObjectId (v : value) : bool :=
  match v with
  | VOid _ => true
  | VList l => existsb has_ObjectId l
  | VDict m => map_fold (fun _ x acc => has_ObjectId x || acc) false m
  | _ => false
  end.

(** A [bytes] object occurs in [v], at any depth. *)
Fixpoint has_bytes (v : value) : bool :=
  match v with
  | VBytes _ => true
  | VList l => existsb has_bytes l
  | VDict m => map_fold (fun _ x acc => has_bytes x || acc) false m
  | _ => false
  end.

(** [ObjectId(v)]; [None] stands for [InvalidId] or [TypeError]. *)
Definition ObjectId_new (v : value) : option bson.ObjectId :=
  match v with
  | VOid o => Some o
  | VStr s => bson.of_str s
  | VBytes b => bson.of_bytes b
  | _ => None
  end.

(** [ObjectId.is_valid(v)]: a false [v] is invalid, any other is valid
    when the constructor accepts it. *)
Definition ObjectId_is_valid (v : value) : bool :=
  truthy v && bool_decide (is_Some (ObjectId_new v)).

(** ** Exceptions and the handler monad *)

(** The exceptions other than [HTTPException] that the modelled code can
    raise. *)
Inductive Failure : Type :=
  | InvalidId          (* bson.errors.InvalidId *)
  | TypeError          (* a non-mapping after [**], a bad ObjectId argument *)
  | JSONDecodeError    (* [request.json()] on a body that is not JSON *)
  | ValidationError    (* pydantic *)
  | StoreError         (* the store could not serve a call *)
  | NoDatabase         (* [db] is [None] *)
  | NotImplementedError. (* [bool(db)] on a pymongo [Database] *)

(** The [detail] of an [HTTPException]: a literal of the source, or
    [str(e)] of a caught exception. *)
Inductive Detail : Type :=
  | Text (s : string)
  | StrOf (e : Failure)
  | StrOfHTTP (status_code : Z) (detail : Detail).

Inductive exn : Type :=
  | HTTPException (status_code : Z) (detail : Detail)
  | Raised (e : Failure).

Inductive result (A : Type) : Type :=
  | Return (a : A)
  | Raise (e : exn).
Arguments Return {A} a.
Arguments Raise {A} e.

(** ** pymongo: the store behind [db] *)

Module pymongo.

(** Collections keep their documents in insertion order.  [next_oid]
    numbers the identifiers handed out so far.  [calls] counts the calls
    made to the store, and [faults] lists the calls (by their number)
    that the store fails to serve. *)
Record Database : Type := {
  collections : gmap string (list Doc);
  next_oid : N;
  calls : nat;
  faults : list nat
}.

(** [db[name]] *)
Definition collection (d : Database) (name : string) : list Doc :=
  default [] (collections d !! name).

Definition tick (d : Database) : Database :=
  {| collections := collections d; next_oid := next_oid d;
     calls := S (calls d); faults := faults d |}.

Definition has_id (oid : bson.ObjectId) (doc : Doc) : bool :=
  match doc !! "_id" with
  | Some (VOid o) => bson.eqb o oid
  | _ => false
  end.

(** [find_one({"_id": oid})] on the documents of a collection. *)
Definition lookup_id (oid : bson.ObjectId) (docs : list Doc) : option Doc :=
  List.find (has_id oid) docs.

(** [insert_one(doc)]: the document is stored under a new identifier. *)
Definition store (name : string) (doc : Doc) (d : Database)
  : bson.ObjectId * Database :=
  let oid := next_oid d in
  (bson.generated oid,
   {| collections :=
        <[name := (collection d name ++ [<["_id" := VOid oid]> doc])%list]>
          (collections d);
      next_oid := (oid + 1)%N;
      calls := calls d; faults := faults d |}).

(** [bool(db)] on a [Database]: "Database objects do not implement truth
    value testing or bool().  Please compare with None instead: database
    is not None" (PyMongo 4, which defines [__bool__] to raise
    [NotImplementedError]). *)
Definition Database_bool (d : Database) : result bool :=
  Raise (Raised NotImplementedError).

End pymongo.

(** The module-level [db] of [database.py]: [None] when no database is
    configured. *)
Abbreviation World := (option pymongo.Database).

Definition M (A : Type) : Type := World -> result A * World.

Definition ret {A} (a : A) : M A := fun db => (Return a, db).

Definition raise {A} (e : exn) : M A := fun db => (Raise e, db).

Definition bind {A B} (m : M A) (k : A -> M B) : M B :=
  fun db =>
    match m db with
    | (Return a, db') => k a db'
    | (Raise e, db') => (Raise e, db')
    end.

Notation "'let!' x ':=' m 'in' k" := (bind m (fun x => k))
  (at level 10, x name, m at level 100, k at level 200).

(** One call to the store ([db[name].op(...)]).  It fails when [db] is
    [None] or when the store does not serve this call; a failed call
    leaves the collections as they were. *)
Definition store_call {A} (op : pymongo.Database -> A * pymongo.Database)
  : M A :=
  fun db =>
    match db with
    | None => (Raise (Raised NoDatabase), None)
    | Some d =>
        if bool_decide (pymongo.calls d ∈ pymongo.faults d)
        then (Raise (Raised StoreError), Some (pymongo.tick d))
        else let '(a, d') := op (pymongo.tick d) in (Return a, Some d')
    end.

(** [db[name].find_one({"_id": oid})] *)
Definition find_one (name : string) (oid : bson.ObjectId) : M (option Doc) :=
  store_call (fun d => (pymongo.lookup_id oid (pymongo.collection d name), d)).

(** [db[name].count_documents({})] *)
Definition count_documents (name : string) : M nat :=
  store_call (fun d => (List.length (pymongo.collection d name), d)).

(** Modelled from the spec: [create_document] of [database.py], which is
    not among the sources.  "insert(collection_name, record) -> id:
    accepts an already-validated or raw mapping, assigns a new unique
    identifier, persists it, returns the identifier.  Must not silently
    drop fields."  A failure of the adapter is raised to the caller and
    nothing is stored.  The identifier is returned as text: every caller
    passes it to [ObjectId(...)] or puts it in a JSON response. *)
Definition create_document (collection_name : string) (data : Doc) : M string :=
  let! oid := store_call (pymongo.store collection_name data) in
  ret (bson.to_str oid).

(** [ObjectId(v)] as a step of a handler. *)
Definition ObjectId (v : value) : M bson.ObjectId :=
  match ObjectId_new v with
  | Some o => ret o
  | None => raise (Raised InvalidId)
  end.

(** [try: ... except HTTPException: raise; except Exception as e:
    raise HTTPException(status_code=500, detail=str(e))] *)
Definition try_except_HTTPException {A} (body : M A) : M A :=
  fun db =>
    match body db with
    | (Raise (Raised e), db') => (Raise (HTTPException 500 (StrOf e)), db')
    | r => r
    end.

(** [try: ... except Exception as e: raise HTTPException(status_code=500,
    detail=str(e))]; an [HTTPException] is an [Exception] too. *)
Definition try_except_Exception {A} (body : M A) : M A :=
  fun db =>
    match body db with
    | (Raise (Raised e), db') => (Raise (HTTPException 500 (StrOf e)), db')
    | (Raise (HTTPException s d), db') =>
        (Raise (HTTPException 500 (StrOfHTTP s d)), db')
    | r => r
    end.

(** [for x in xs: acc = body(acc, x)] *)
Fixpoint for_each {A B} (xs : list A) (acc : B) (body : B -> A -> M B) : M B :=
  match xs with
  | [] => ret acc
  | x :: xs' => let! acc' := body acc x in for_each xs' acc' body
  end.

(** ** FastAPI / Starlette: requests and responses *)

Module starlette.

Record UploadFile : Type := {
  filename : option string;
  content_type : option string;
  contents : list Byte.byte      (* what [await uploaded.read()] returns *)
}.

(** [json] is what [await request.json()] returns, [None] when the body
    is not JSON. *)
Record Request : Type := {
  headers : gmap string string;
  json : option value
}.

(** What the client gets: the handler's value under the status code of
    the route, or the status and detail of an [HTTPException]. *)
Inductive Response (A : Type) : Type :=
  | Content (status_code : Z) (content : A)
  | Error (status_code : Z) (detail : Detail).
Arguments Content {A} status_code content.
Arguments Error {A} status_code detail.

End starlette.

(** [@app.get(path)] / [@app.post(path, status_code=...)]: an exception
    that is not an [HTTPException] would be answered with 500. *)
Definition route {A} (status_code : Z) (handler : M A)
  : World -> starlette.Response A * World :=
  fun db =>
    match handler db with
    | (Return a, db') => (starlette.Content status_code a, db')
    | (Raise (HTTPException s d), db') => (starlette.Error s d, db')
    | (Raise (Raised e), db') => (starlette.Error 500 (StrOf e), db')
    end.

(** An optional text as a Python value. *)
Definition of_optional (o : option string) : value :=
  match o with Some s => VStr s | None => VNone end.

(** ** pydantic and schemas.py *)

Module pydantic.

(** The field validators of pydantic, for the three field types of the
    [Application] schema; [None] is a validation error.  Which inputs
    they coerce depends on the version of the library. *)
Record Validators : Type := {
  str_validator : value -> option string;
  HttpUrl_validator : value -> option string;
  bool_validator : value -> option bool
}.

(** [x: T = Field(...)] *)
Definition required {A} (data : Doc) (k : string)
    (validate : value -> option A) : option A :=
  match data !! k with
  | Some v => validate v
  | None => None
  end.

(** [x: Optional[T] = Field(None)] *)
Definition optional {A} (data : Doc) (k : string)
    (validate : value -> option A) : option (option A) :=
  match data !! k with
  | None | Some VNone => Some None
  | Some v => Some <$> validate v
  end.

(** [x: T = Field(dflt)] *)
Definition defaulted {A} (data : Doc) (k : string)
    (validate : value -> option A) (dflt : A) : option A :=
  match data !! k with
  | Some v => validate v
  | None => Some dflt
  end.

End pydantic.

Module schemas.

Record Application : Type := {
  job_id : string;
  name : string;
  email : string;
  phone : option string;
  linkedin : option string;
  portfolio : option string;
  cover_letter : option string;
  consent : bool
}.

(** [Application] built from the keyword arguments [**data]; fields
    that the schema does not declare are ignored. *)
Definition validate (V : pydantic.Validators) (data : Doc)
  : option Application :=
  job_id ← pydantic.required data "job_id" (pydantic.str_validator V);
  name ← pydantic.required data "name" (pydantic.str_validator V);
  email ← pydantic.required data "email" (pydantic.str_validator V);
  phone ← pydantic.optional data "phone" (pydantic.str_validator V);
  linkedin ← pydantic.optional data "linkedin" (pydantic.HttpUrl_validator V);
  portfolio ← pydantic.optional data "portfolio" (pydantic.HttpUrl_validator V);
  cover_letter ← pydantic.optional data "cover_letter" (pydantic.str_validator V);
  consent ← pydantic.defaulted data "consent" (pydantic.bool_validator V) true;
  Some {| job_id := job_id; name := name; email := email; phone := phone;
          linkedin := linkedin; portfolio := portfolio;
          cover_letter := cover_letter; consent := consent |}.

(** [_app.dict()] *)
Definition dict (a : Application) : Doc :=
  <["job_id" := VStr (job_id a)]>
 (<["name" := VStr (name a)]>
 (<["email" := VStr (email a)]>
 (<["phone" := of_optional (phone a)]>
 (<["linkedin" := of_optional (linkedin a)]>
 (<["portfolio" := of_optional (portfolio a)]>
 (<["cover_letter" := of_optional (cover_letter a)]>
 (<["consent" := VBool (consent a)]> ∅))))))).

End schemas.

(** Field types and constraints that the other schemas of [schemas.py]
    declare. *)
Module constraints.

(** [List[T]]: a list whose items all pass the validator of [T]. *)
Definition list_of {A} (item : value -> option A) (v : value)
  : option (list A) :=
  match v with
  | VList l => mapM item l
  | _ => None
  end.

(** [Field(..., ge=lo, le=hi)] on an integer field. *)
Definition bounded (int_validator : value -> option Z) (lo hi : Z)
    (v : value) : option Z :=
  match int_validator v with
  | Some n => if ((lo <=? n) && (n <=? hi))%Z then Some n else None
  | None => None
  end.

End constraints.

Module schemas_Job.

Record Job : Type := {
  title : string;
  department : string;
  location : string;
  employment_type : string;
  description : string;
  responsibilities : list string;
  requirements : list string;
  salary_range : option string;
  remote : bool
}.

(** [Job] built from the keyword arguments [**data]. *)
Definition validate (V : pydantic.Validators) (data : Doc) : option Job :=
  title ← pydantic.required data "title" (pydantic.str_validator V);
  department ← pydantic.required data "department" (pydantic.str_validator V);
  location ← pydantic.required data "location" (pydantic.str_validator V);
  employment_type ←
    pydantic.required data "employment_type" (pydantic.str_validator V);
  description ← pydantic.required data "description" (pydantic.str_validator V);
  responsibilities ←
    pydantic.defaulted data "responsibilities"
      (constraints.list_of (pydantic.str_validator V)) [];
  requirements ←
    pydantic.defaulted data "requirements"
      (constraints.list_of (pydantic.str_validator V)) [];
  salary_range ← pydantic.optional data "salary_range" (pydantic.str_validator V);
  remote ← pydantic.defaulted data "remote" (pydantic.bool_validator V) false;
  Some {| title := title; department := department; location := location;
          employment_type := employment_type; description := description;
          responsibilities := responsibilities; requirements := requirements;
          salary_range := salary_range; remote := remote |}.

(** The fields of the model as a mapping, which is what a store keeps of
    it. *)
Definition dict (j : Job) : Doc :=
  <["title" := VStr (title j)]>
 (<["department" := VStr (department j)]>
 (<["location" := VStr (location j)]>
 (<["employment_type" := VStr (employment_type j)]>
 (<["description" := VStr (description j)]>
 (<["responsibilities" := VList (VStr <$> responsibilities j)]>
 (<["requirements" := VList (VStr <$> requirements j)]>
 (<["salary_range" := of_optional (salary_range j)]>
 (<["remote" := VBool (remote j)]> ∅)))))))).

End schemas_Job.

Module schemas_User.

Record User : Type := {
  name : string;
  email : string;
  address : string;
  age : option Z;
  is_active : bool
}.

(** [User] built from the keyword arguments [**data]; [int_validator] is
    the validator of pydantic for [int]. *)
Definition validate (V : pydantic.Validators)
    (int_validator : value -> option Z) (data : Doc) : option User :=
  name ← pydantic.required data "name" (pydantic.str_validator V);
  email ← pydantic.required data "email" (pydantic.str_validator V);
  address ← pydantic.required data "address" (pydantic.str_validator V);
  age ← pydantic.optional data "age" (constraints.bounded int_validator 0 120);
  is_active ← pydantic.defaulted data "is_active" (pydantic.bool_validator V) true;
  Some {| name := name; email := email; address := address; age := age;
          is_active := is_active |}.

End schemas_User.

Section Careers.

(** Python's built-in [str] on a value that is neither a [str] nor an
    ObjectId.  No handler depends on the text it produces. *)
Variable builtin_str : value -> string.

Definition py_str (v : value) : string :=
  match v with
  | VStr s => s
  | VOid o => bson.to_str o
  | _ => builtin_str v
  end.

(** *** main.py: serialize_doc *)

(** What the loop of [serialize_doc] leaves in the place of a value [v]. *)
Definition stringified (v : value) : value :=
  if is_ObjectId v then VStr (py_str v) else v.

(** One pass of the loop body of [serialize_doc] on the item [(k, v)]. *)
Definition stringify_item (k : string) (v : value) (doc : Doc) : Doc :=
  if is_ObjectId v then <[k := VStr (py_str v)]> doc else doc.

Definition serialize_doc (doc : option Doc) : option Doc :=
  match doc with
  | None => None
  | Some d =>
      if negb (truthy (VDict d)) then Some d
      else
        let doc := d in
        let doc :=
          if truthy (dict_get doc "_id")
          then <["id" := VStr (py_str (dict_get doc "_id"))]> (delete "_id" doc)
          else doc in
        (* for k, v in list(doc.items()): ... *)
        Some (map_fold stringify_item doc doc)
  end.

(** The validators of the installed pydantic. *)
Variable V : pydantic.Validators.

(** *** main.py: get_job *)

Definition get_job (job_id : string) : M (option Doc) :=
  try_except_HTTPException (
    if negb (ObjectId_is_valid (VStr job_id))
    then raise (HTTPException 400 (Text "Invalid job id"))
    else
      let! oid := ObjectId (VStr job_id) in
      let! doc := find_one "job" oid in
      if negb (truthy (from_option VDict VNone doc))
      then raise (HTTPException 404 (Text "Job not found"))
      else ret (serialize_doc doc)).

(** *** main.py: apply *)

(** The block under "Validate job exists if possible", which the source
    has once in each branch: [jid] is [payload.get("job_id")]. *)
Definition validate_job_exists (jid : value) : M unit :=
  if truthy jid && ObjectId_is_valid jid
  then
    let! oid := ObjectId jid in
    let! exists_ := find_one "job" oid in
    if negb (truthy (from_option VDict VNone exists_))
    then raise (HTTPException 404 (Text "Job not found for application"))
    else ret tt
  else ret tt.

(** The payload built from the form fields. *)
Definition form_payload
    (job_id name email phone linkedin portfolio cover_letter : option string)
    (consent : option bool) : Doc :=
  <["job_id" := of_optional job_id]>
 (<["name" := of_optional name]>
 (<["email" := of_optional email]>
 (<["phone" := of_optional phone]>
 (<["linkedin" := of_optional linkedin]>
 (<["portfolio" := of_optional portfolio]>
 (<["cover_letter" := of_optional cover_letter]>
 (<["consent" := VBool (truthy (from_option VBool VNone consent))]> ∅))))))).

(** The metadata kept of an uploaded file; [b] is what was read of it. *)
Definition file_meta (uploaded : starlette.UploadFile) : value :=
  let b := starlette.contents uploaded in
  VDict (<["filename" := of_optional (starlette.filename uploaded)]>
        (<["content_type" := of_optional (starlette.content_type uploaded)]>
        (<["size" := VInt (Z.of_nat (List.length b))]> ∅))).

(** [for label, uploaded in ("cv", cv), ("portfolio_file", portfolio_file)] *)
Definition collect_files_meta
    (cv portfolio_file : option starlette.UploadFile) : Doc :=
  fold_left
    (fun files_meta '(label, uploaded) =>
       match uploaded with
       | Some u => <[label := file_meta u]> files_meta
       | None => files_meta
       end)
    [("cv", cv); ("portfolio_file", portfolio_file)] ∅.

(** [await request.json()] *)
Definition request_json (request : starlette.Request) : M value :=
  match starlette.json request with
  | Some data => ret data
  | None => raise (Raised JSONDecodeError)
  end.

(** [Application] built from [**data]: [data] must be a mapping. *)
Definition Application (data : value) : M schemas.Application :=
  match data with
  | VDict m =>
      match schemas.validate V m with
      | Some a => ret a
      | None => raise (Raised ValidationError)
      end
  | _ => raise (Raised TypeError)
  end.

Definition apply (request : starlette.Request)
    (job_id name email phone linkedin portfolio cover_letter : option string)
    (consent : option bool)
    (cv portfolio_file : option starlette.UploadFile) : M (option Doc) :=
  try_except_HTTPException (
    let content_type :=
      default "" (starlette.headers request !! "content-type") in
    let! payload :=
      if String.prefix "multipart/form-data" content_type
         || bool_decide (is_Some job_id)
      then
        (* Build from form fields *)
        let payload :=
          form_payload job_id name email phone linkedin portfolio
            cover_letter consent in
        let! _ := validate_job_exists (dict_get payload "job_id") in
        (* Attach file metadata *)
        let files_meta := collect_files_meta cv portfolio_file in
        ret (if truthy (VDict files_meta)
             then <["files" := VDict files_meta]> payload
             else payload)
      else
        (* JSON path *)
        let! data := request_json request in
        let! _app := Application data in
        let payload := schemas.dict _app in
        let jid := dict_get payload "job_id" in
        let! _ := validate_job_exists jid in
        ret payload
    in
    let! inserted_id := create_document "application" payload in
    let! oid := ObjectId (VStr inserted_id) in
    let! doc := find_one "application" oid in
    ret (serialize_doc doc)).

(** *** main.py: seed_jobs *)

Definition examples : list Doc := [
  <["title" := VStr "Senior SEO Strategist"]>
 (<["department" := VStr "Organic"]>
 (<["location" := VStr "Brighton, UK"]>
 (<["employment_type" := VStr "Full-time"]>
 (<["description" := VStr "Lead strategy across enterprise SEO accounts, collaborating with content, UX, and dev."]>
 (<["responsibilities" := VList [
      VStr "Own SEO strategy for key clients";
      VStr "Guide technical audits and roadmaps";
      VStr "Mentor junior team members"]]>
 (<["requirements" := VList [
      VStr "5+ years SEO experience";
      VStr "Strong technical SEO skills";
      VStr "Comfortable with stakeholder communication"]]>
 (<["salary_range" := VStr "£45k–£60k DOE"]>
 (<["remote" := VBool true]> ∅))))))));
  <["title" := VStr "Performance Media Manager"]>
 (<["department" := VStr "Media"]>
 (<["location" := VStr "Hybrid / Brighton"]>
 (<["employment_type" := VStr "Full-time"]>
 (<["description" := VStr "Plan, launch and optimize paid search & social campaigns focused on measurable growth."]>
 (<["responsibilities" := VList [
      VStr "Own PPC & Paid Social across channels";
      VStr "Implement testing frameworks";
      VStr "Report insights and iterate"]]>
 (<["requirements" := VList [
      VStr "4+ years in performance media";
      VStr "Platform certifications";
      VStr "Strong analytical mindset"]]>
 (<["salary_range" := VStr "£40k–£55k DOE"]>
 (<["remote" := VBool true]> ∅))))))));
  <["title" := VStr "Product Designer (UX/UI)"]>
 (<["department" := VStr "Creative"]>
 (<["location" := VStr "Remote (UK)"]>
 (<["employment_type" := VStr "Contract"]>
 (<["description" := VStr "Design simple, beautiful product experiences across web with accessibility in mind."]>
 (<["responsibilities" := VList [
      VStr "Translate strategy into UX flows";
      VStr "Create UI systems and prototypes";
      VStr "Collaborate with dev for implementation"]]>
 (<["requirements" := VList [
      VStr "Strong portfolio of shipped work";
      VStr "Accessibility knowledge";
      VStr "Proficiency in Figma"]]>
 (<["salary_range" := VStr "Competitive"]>
 (<["remote" := VBool true]> ∅))))))))
].

(** The truth value of [db] in a condition: [None] is false, and a
    database handle is asked for its [bool()]. *)
Definition db_truth : M bool :=
  fun db =>
    match db with
    | None => (Return false, db)
    | Some d => (pymongo.Database_bool d, db)
    end.

(** [db["job"].count_documents({}) if db else 0] *)
Definition count_jobs_if_db : M nat :=
  let! truth := db_truth in
  if truth then count_documents "job" else ret O.

Definition seed_jobs : M Doc :=
  try_except_Exception (
    let! count := count_jobs_if_db in
    if (0 <? count)%nat
    then ret (<["seeded" := VBool false]>
             (<["message" := VStr "Jobs already exist"]> ∅))
    else
      let! ids :=
        for_each examples []
          (fun ids ex =>
             let! id := create_document "job" ex in
             ret (ids ++ [id])%list) in
      ret (<["seeded" := VBool true]>
          (<["count" := VInt (Z.of_nat (List.length ids))]>
          (<["ids" := VList (VStr <$> ids)]> ∅)))).

(** *** The routes *)

(** [@app.get("/careers/jobs/{job_id}")] *)
Definition GET_careers_jobs_id (job_id : string) :=
  route 200 (get_job job_id).

(** The form fields and files a client sent; [None] is a field left out. *)
Record Form : Type := {
  form_job_id : option string;
  form_name : option string;
  form_email : option string;
  form_phone : option string;
  form_linkedin : option string;
  form_portfolio : option string;
  form_cover_letter : option string;
  form_consent : option bool;
  form_cv : option starlette.UploadFile;
  form_portfolio_file : option starlette.UploadFile
}.

(** [@app.post("/careers/apply", status_code=201)]: each parameter takes
    the submitted field, or its declared default, [Form(None)],
    [Form(False)] or [File(None)]. *)
Definition POST_careers_apply (request : starlette.Request) (form : Form) :=
  route 201
    (apply request
       (form_job_id form) (form_name form) (form_email form)
       (form_phone form) (form_linkedin form) (form_portfolio form)
       (form_cover_letter form)
       (match form_consent form with Some b => Some b | None => Some false end)
       (form_cv form) (form_portfolio_file form)).

(** [@app.post("/careers/seed", status_code=201)] *)
Definition POST_careers_seed := route 201 seed_jobs.

(** *** Vocabulary of the statements *)

(** The document after the rename of [_id], before the loop. *)
Definition renamed (d : Doc) : Doc :=
  if truthy (dict_get d "_id")
  then <["id" := VStr (py_str (dict_get d "_id"))]> (delete "_id" d)
  else d.

(** The documents of a collection of [db]; none when there is no database. *)
Definition documents (name : string) (db : World) : list Doc :=
  from_option (fun d => pymongo.collection d name) [] db.

(** The store serves every call. *)
Definition serving (d : pymongo.Database) : Prop := pymongo.faults d = [].

(** The identifier the store hands out next is well formed and is not in
    use in the collection [name]. *)
Definition next_oid_fresh (name : string) (d : pymongo.Database) : bool :=
  (pymongo.next_oid d <? bson.bound)%N
  && forallb (fun doc => negb (pymongo.has_id (pymongo.next_oid d) doc))
       (pymongo.collection d name).

(** A job document with the identifier [jid] is in the store. *)
Definition job_known (d : pymongo.Database) (jid : value) : bool :=
  match ObjectId_new jid with
  | Some oid =>
      bool_decide (is_Some (pymongo.lookup_id oid (pymongo.collection d "job")))
  | None => false
  end.

(** The condition under which [apply] takes the form branch. *)
Definition form_mode (request : starlette.Request) (job_id : option string)
  : bool :=
  String.prefix "multipart/form-data"
    (default "" (starlette.headers request !! "content-type"))
  || bool_decide (is_Some job_id).

(** The payload of a form submission, as it reaches [create_document]. *)
Definition form_document (form : Form) : Doc :=
  let payload :=
    form_payload (form_job_id form) (form_name form) (form_email form)
      (form_phone form) (form_linkedin form) (form_portfolio form)
      (form_cover_letter form)
      (match form_consent form with Some b => Some b | None => Some false end) in
  let files_meta :=
    collect_files_meta (form_cv form) (form_portfolio_file form) in
  if truthy (VDict files_meta)
  then <["files" := VDict files_meta]> payload
  else payload.

(** The last three statements of the [try] block of [apply]. *)
Definition insert_and_fetch (payload : Doc) : M (option Doc) :=
  let! inserted_id := create_document "application" payload in
  let! oid := ObjectId (VStr inserted_id) in
  let! doc := find_one "application" oid in
  ret (serialize_doc doc).

(** What both branches of [apply] come to once the payload is built:
    the existence check on [jid], then the insertion of [payload], under
    the [try] of the handler and the status code of the route. *)
Definition submit (jid : value) (payload : Doc)
  : World -> starlette.Response (option Doc) * World :=
  route 201 (try_except_HTTPException (
    let! _ := validate_job_exists jid in
    insert_and_fetch payload)).

(** What [apply] makes of a submission before it reaches the store: the
    [job_id] it checks and the payload it inserts; [None] when the JSON
    body is rejected. *)
Definition decoded (request : starlette.Request) (form : Form)
  : option (value * Doc) :=
  if form_mode request (form_job_id form)
  then Some (of_optional (form_job_id form), form_document form)
  else
    match starlette.json request with
    | Some (VDict m) =>
        (fun a => (VStr (schemas.job_id a), schemas.dict a))
          <$> schemas.validate V m
    | _ => None
    end.

(** The submission is answered 201 after [n] calls to the store, and
    [doc] is the one document it added to the applications. *)
Definition accepted (n : nat) (doc : Doc) (d : pymongo.Database)
    (r : starlette.Response (option Doc) * World) : Prop :=
  exists d',
    r = (starlette.Content 201 (serialize_doc (Some doc)), Some d')
    /\ pymongo.collection d' "application"
       = pymongo.collection d "application" ++ [doc]
    /\ pymongo.calls d' = (n + pymongo.calls d)%nat.

(** The claim of atomicity: one document and a 201 that carries it, or no
    document and an error. *)
Definition atomic_submission (request : starlette.Request) (form : Form)
    (db : World) : Prop :=
  let r := POST_careers_apply request form db in
  (exists doc,
      r.1 = starlette.Content 201 (serialize_doc (Some doc))
      /\ documents "application" r.2 = documents "application" db ++ [doc])
  \/ (exists status detail,
      r.1 = starlette.Error status detail
      /\ documents "application" r.2 = documents "application" db).

(** The document [doc] has, under [files] and the label [label], the
    name, the declared content type and the size of [uploaded], and
    nothing else. *)
Definition file_recorded (doc : Doc) (label : string)
    (uploaded : starlette.UploadFile) : Prop :=
  exists files meta,
    doc !! "files" = Some (VDict files)
    /\ files !! label = Some (VDict meta)
    /\ meta !! "filename" = Some (of_optional (starlette.filename uploaded))
    /\ meta !! "content_type"
       = Some (of_optional (starlette.content_type uploaded))
    /\ meta !! "size"
       = Some (VInt (Z.of_nat (List.length (starlette.contents uploaded))))
    /\ dom meta = {["filename"; "content_type"; "size"]}.

(** The document [doc] has nothing under [files] and the label [label]. *)
Definition file_absent (doc : Doc) (label : string) : Prop :=
  match doc !! "files" with
  | None => True
  | Some (VDict files) => files !! label = None
  | Some _ => False
  end.

(** A document as the store keeps it. *)
Definition stored (oid : bson.ObjectId) (payload : Doc) : Doc :=
  <["_id" := VOid oid]> payload.

(** The store after the call that inserts [payload] in the collection
    [name]. *)
Definition inserted (name : string) (payload : Doc) (d : pymongo.Database)
  : pymongo.Database :=
  (pymongo.store name payload (pymongo.tick d)).2.

(** This call to the store fails. *)
Definition fails (d : pymongo.Database) : bool :=
  bool_decide (pymongo.calls d ∈ pymongo.faults d).

(** The applicant data of a form as a JSON object: the fields that are
    present, under the same names. *)
Definition json_of_form (form : Form) : Doc :=
  fold_left
    (fun body '(k, field) =>
       match field with
       | Some v => <[k := v]> body
       | None => body
       end)
    [("job_id", VStr <$> form_job_id form);
     ("name", VStr <$> form_name form);
     ("email", VStr <$> form_email form);
     ("phone", VStr <$> form_phone form);
     ("linkedin", VStr <$> form_linkedin form);
     ("portfolio", VStr <$> form_portfolio form);
     ("cover_letter", VStr <$> form_cover_letter form);
     ("consent", VBool <$> form_consent form)] ∅.

(** *** Sample inputs *)

(** A [str] for the remaining values, and validators that accept a value
    of the declared type only. *)
Definition sample_str (v : value) : string :=
  match v with
  | VNone => "None"
  | VBool true => "True"
  | VBool false => "False"
  | _ => "<object>"
  end.

Definition strict : pydantic.Validators := {|
  pydantic.str_validator v := match v with VStr s => Some s | _ => None end;
  pydantic.HttpUrl_validator v :=
    match v with
    | VStr s =>
        if String.prefix "http://" s || String.prefix "https://" s
        then Some s else None
    | _ => None
    end;
  pydantic.bool_validator v := match v with VBool b => Some b | _ => None end
|}.

Definition empty_db : pymongo.Database := {|
  pymongo.collections := ∅; pymongo.next_oid := 0%N;
  pymongo.calls := 0; pymongo.faults := []
|}.

(** A store whose second call fails. *)
Definition flaky_db : pymongo.Database := {|
  pymongo.collections := ∅; pymongo.next_oid := 0%N;
  pymongo.calls := 0; pymongo.faults := [1%nat]
|}.

(** A store with the first example job, under the identifier 0. *)
Definition one_job_db : pymongo.Database := {|
  pymongo.collections :=
    {["job" := [stored 0%N (List.hd ∅ examples)]]};
  pymongo.next_oid := 1%N; pymongo.calls := 0; pymongo.faults := []
|}.

Definition multipart_request : starlette.Request := {|
  starlette.headers :=
    {["content-type" := "multipart/form-data; boundary=----7d9"]};
  starlette.json := None
|}.

Definition json_request (body : value) : starlette.Request := {|
  starlette.headers := {["content-type" := "application/json"]};
  starlette.json := Some body
|}.

Definition no_form : Form := {|
  form_job_id := None; form_name := None; form_email := None;
  form_phone := None; form_linkedin := None; form_portfolio := None;
  form_cover_letter := None; form_consent := None;
  form_cv := None; form_portfolio_file := None
|}.

(** An applicant who gives no name and applies for a job known by a
    reference that is not an identifier. *)
Definition nameless_form : Form := {|
  form_job_id := Some "seo-strategist"; form_name := None;
  form_email := Some "ada@example.org";
  form_phone := None; form_linkedin := None; form_portfolio := None;
  form_cover_letter := None; form_consent := None;
  form_cv := None; form_portfolio_file := None
|}.

(** An applicant for the job 0, with a two-byte CV. *)
Definition cv_form : Form := {|
  form_job_id := Some "000000000000000000000000";
  form_name := Some "Ada"; form_email := Some "ada@example.org";
  form_phone := None; form_linkedin := None; form_portfolio := None;
  form_cover_letter := None; form_consent := None;
  form_cv := Some {| starlette.filename := Some "cv.pdf";
                     starlette.content_type := Some "application/pdf";
                     starlette.contents := [Byte.x25; Byte.x50] |};
  form_portfolio_file := None
|}.

(** A text of 24 characters that [ObjectId] accepts: 22 digits and two
    spaces, which spell eleven bytes. *)
Definition spaced_id : string := "0000000000000000000000  ".

(** The same applicant, for the job that [spaced_id] names. *)
Definition spaced_form : Form := {|
  form_job_id := Some spaced_id;
  form_name := Some "Ada"; form_email := Some "ada@example.org";
  form_phone := None; form_linkedin := None; form_portfolio := None;
  form_cover_letter := None; form_consent := None;
  form_cv := None; form_portfolio_file := None
|}.

(** A JSON body that names a job and leaves [consent] out, and one that
    leaves [job_id] out too. *)
Definition json_body : Doc :=
  <["job_id" := VStr "000000000000000000000000"]>
 (<["name" := VStr "Ada"]>
 (<["email" := VStr "ada@example.org"]> ∅)).

Definition json_body_without_job_id : Doc :=
  <["name" := VStr "Ada"]> (<["email" := VStr "ada@example.org"]> ∅).

(** [json_body] as the strict validators read it. *)
Definition json_application : schemas.Application := {|
  schemas.job_id := "000000000000000000000000";
  schemas.name := "Ada"; schemas.email := "ada@example.org";
  schemas.phone := None; schemas.linkedin := None;
  schemas.portfolio := None; schemas.cover_letter := None;
  schemas.consent := true
|}.

(** A stored job that refers to another document by its ObjectId. *)
Definition nested_doc : Doc :=
  <["_id" := VOid 1%N]>
 (<["title" := VStr "Product Designer (UX/UI)"]>
 (<["owner" := VDict (<["ref" := VOid 2%N]> ∅)]> ∅)).

(** *** main.py: list_jobs, create_job and test_database *)

(** Modelled from the spec: [get_documents] of [database.py], which is
    not among the sources, with the empty filter, the only one that the
    sources pass.  "find(collection_name, filter, limit) -> sequence of
    documents: returns documents matching an equality filter (empty
    filter => all documents), in insertion order, each carrying its
    assigned identifier; limit = none means unbounded." *)
Definition get_documents (collection_name : string) (limit : option nat)
  : M (list Doc) :=
  store_call (fun d =>
    (from_option (fun n => take n) id limit
       (pymongo.collection d collection_name), d)).

Definition list_jobs : M (list (option Doc)) :=
  try_except_Exception (
    let! docs := get_documents "job" None in
    ret ((fun d => serialize_doc (Some d)) <$> docs)).

(** [create_document] is given the validated model and stores its
    fields. *)
Definition create_job (job : schemas_Job.Job) : M (option Doc) :=
  try_except_Exception (
    let! inserted_id := create_document "job" (schemas_Job.dict job) in
    (* Fetch created document *)
    let! oid := ObjectId (VStr inserted_id) in
    let! doc := find_one "job" oid in
    ret (serialize_doc doc)).

(** [@app.get("/careers/jobs")] *)
Definition GET_careers_jobs := route 200 list_jobs.

(** [@app.post("/careers/jobs", status_code=201)], on a body that FastAPI
    has validated into [job]. *)
Definition POST_careers_jobs (job : schemas_Job.Job) :=
  route 201 (create_job job).

(** [str(e)] of an exception, and [db.name] of a database handle. *)
Variable str_of_exception : exn -> string.
Variable Database_name : pymongo.Database -> string.

(** [try: body except Exception as e: handler(e)] *)
Definition try_except {A} (body : M A) (handler : exn -> M A) : M A :=
  fun db =>
    match body db with
    | (Raise e, db') => handler e db'
    | r => r
    end.

(** [db.list_collection_names()] *)
Definition list_collection_names : M (list string) :=
  store_call (fun d => ((map_to_list (pymongo.collections d)).*1, d)).

(** ["ok" if os.getenv(name) else "ko"] *)
Definition env_flag (environ : gmap string string) (name : string) : value :=
  VStr (if truthy (of_optional (environ !! name))
        then "✅ Set" else "❌ Not Set").

(** [environ] is the environment of the process.  Nothing raises in the
    outer [try] outside the inner one; a database handle has the
    attribute [name]. *)
Definition test_database (environ : gmap string string) : M Doc :=
  let response : Doc :=
    <["backend" := VStr "✅ Running"]>
   (<["database" := VStr "❌ Not Available"]>
   (<["database_url" := VNone]>
   (<["database_name" := VNone]>
   (<["connection_status" := VStr "Not Connected"]>
   (<["collections" := VList []]> ∅))))) in
  let! response :=
    try_except
      (fun db =>
         match db with
         | Some d =>
             let response := <["database" := VStr "✅ Available"]> response in
             let response :=
               <["database_url" := VStr "✅ Configured"]> response in
             let response :=
               <["database_name" := VStr (Database_name d)]> response in
             let response :=
               <["connection_status" := VStr "Connected"]> response in
             try_except
               (let! collections := list_collection_names in
                (* Show first 10 collections *)
                let response :=
                  <["collections" := VList (VStr <$> take 10 collections)]>
                    response in
                ret (<["database" := VStr "✅ Connected & Working"]> response))
               (fun e =>
                  ret (<["database" :=
                          VStr (String.append "⚠️  Connected but Error: "
                                  (str_prefix 50 (str_of_exception e)))]>
                         response))
               db
         | None =>
             ret (<["database" := VStr "⚠️  Available but not initialized"]>
                    response) db
         end)
      (fun e =>
         ret (<["database" :=
                 VStr (String.append "❌ Error: "
                         (str_prefix 50 (str_of_exception e)))]> response)) in
  (* Check environment variables *)
  let response :=
    <["database_url" := env_flag environ "DATABASE_URL"]> response in
  let response :=
    <["database_name" := env_flag environ "DATABASE_NAME"]> response in
  ret response.

(** [@app.get("/test")] *)
Definition GET_test (environ : gmap string string) :=
  route 200 (test_database environ).

(** *** More vocabulary *)

(** The collections of [db]; none when there is no database. *)
Definition all_collections (db : World) : gmap string (list Doc) :=
  from_option pymongo.collections ∅ db.

(** The identifier of a stored document. *)
Definition doc_oid (doc : Doc) : option bson.ObjectId :=
  match doc !! "_id" with
  | Some (VOid oid) => Some oid
  | _ => None
  end.

(** Every document of the store carries an identifier that the store has
    handed out already, and no two documents of a collection carry the
    same. *)
Definition identified (d : pymongo.Database) : Prop :=
  forall name,
    Forall (fun doc => exists n : N,
              doc_oid doc = Some (bson.generated n)
              /\ (n < pymongo.next_oid d)%N)
      (pymongo.collection d name)
    /\ NoDup (omap doc_oid (pymongo.collection d name)).

(** The store [d'] comes from the store [d] by calls that were counted
    and insertions, and by nothing else. *)
Inductive evolves (d : pymongo.Database) : pymongo.Database -> Prop :=
  | evolves_refl : evolves d d
  | evolves_tick d' : evolves d d' -> evolves d (pymongo.tick d')
  | evolves_inserted name payload d' :
      evolves d d' -> evolves d (inserted name payload d').

Definition World_evolves (db db' : World) : Prop :=
  match db, db' with
  | None, None => True
  | Some d, Some d' => evolves d d'
  | _, _ => False
  end.

(** A step of a handler that, whatever it returns or raises, only counts
    calls and inserts. *)
Definition appends_only {A} (m : M A) : Prop :=
  forall db, World_evolves db (m db).2.

(** A request to one of the routes, and the store after it. *)
Inductive Call : Type :=
  | Call_get_job (job_id : string)
  | Call_apply (request : starlette.Request) (form : Form)
  | Call_seed
  | Call_create_job (job : schemas_Job.Job)
  | Call_list_jobs
  | Call_test (environ : gmap string string).

Definition after (c : Call) (db : World) : World :=
  match c with
  | Call_get_job job_id => (GET_careers_jobs_id job_id db).2
  | Call_apply request form => (POST_careers_apply request form db).2
  | Call_seed => (POST_careers_seed db).2
  | Call_create_job job => (POST_careers_jobs job db).2
  | Call_list_jobs => (GET_careers_jobs db).2
  | Call_test environ => (GET_test environ db).2
  end.

Definition after_all (cs : list Call) (db : World) : World :=
  fold_left (fun w c => after c w) cs db.

(** The keys of the [Application] schema and of the [Job] schema. *)
Definition Application_keys : gset string :=
  {["job_id"; "name"; "email"; "phone"; "linkedin"; "portfolio";
    "cover_letter"; "consent"]}.

Definition Job_keys : gset string :=
  {["title"; "department"; "location"; "employment_type"; "description";
    "responsibilities"; "requirements"; "salary_range"; "remote"]}.

(** *** More sample inputs *)

Definition sample_int (v : value) : option Z :=
  match v with VInt n => Some n | _ => None end.

Definition sample_exception_str (e : exn) : string :=
  match e with
  | HTTPException _ _ => "HTTPException"
  | Raised StoreError => "connexion refusée par l'hôte «db.example.org:27017» — délai dépassé après 20000 ms (réessayez plus tard)"
  | Raised _ => "error"
  end.

Definition sample_Database_name (d : pymongo.Database) : string := "careers".

(** A store whose first call fails. *)
Definition down_db : pymongo.Database := {|
  pymongo.collections := ∅; pymongo.next_oid := 0%N;
  pymongo.calls := 0; pymongo.faults := [0%nat]
|}.

Definition sample_job : schemas_Job.Job := {|
  schemas_Job.title := "Data Analyst";
  schemas_Job.department := "Insight";
  schemas_Job.location := "Brighton, UK";
  schemas_Job.employment_type := "Part-time";
  schemas_Job.description := "Turn campaign data into decisions.";
  schemas_Job.responsibilities := ["Build dashboards"];
  schemas_Job.requirements := [];
  schemas_Job.salary_range := None;
  schemas_Job.remote := false
|}.

(** A body for [Job] with the required fields only. *)
Definition minimal_job_body : Doc :=
  <["title" := VStr "Data Analyst"]>
 (<["department" := VStr "Insight"]>
 (<["location" := VStr "Brighton, UK"]>
 (<["employment_type" := VStr "Part-time"]>
 (<["description" := VStr "Turn campaign data into decisions."]> ∅)))).

Definition minimal_job : schemas_Job.Job := {|
  schemas_Job.title := "Data Analyst";
  schemas_Job.department := "Insight";
  schemas_Job.location := "Brighton, UK";
  schemas_Job.employment_type := "Part-time";
  schemas_Job.description := "Turn campaign data into decisions.";
  schemas_Job.responsibilities := [];
  schemas_Job.requirements := [];
  schemas_Job.salary_range := None;
  schemas_Job.remote := false
|}.

Definition user_body : Doc :=
  <["name" := VStr "Ada"]>
 (<["email" := VStr "ada@example.org"]>
 (<["address" := VStr "12 Ship Street"]>
 (<["age" := VInt 36]> ∅))).

Definition sample_user : schemas_User.User := {|
  schemas_User.name := "Ada"; schemas_User.email := "ada@example.org";
  schemas_User.address := "12 Ship Street"; schemas_User.age := Some 36%Z;
  schemas_User.is_active := true
|}.

(** [json_body] with a LinkedIn field that is not a URL. *)
Definition json_body_with_handle : Doc :=
  <["linkedin" := VStr "@ada"]> json_body.

(** A user of 150 years. *)
Definition old_user_body : Doc := <["age" := VInt 150]> user_body.

(** Some requests, one after the other. *)
Definition sample_calls : list Call :=
  [Call_seed; Call_apply multipart_request cv_form;
   Call_get_job "000000000000000000000001"; Call_create_job sample_job;
   Call_apply (json_request (VDict json_body)) no_form; Call_list_jobs].

(** An applicant whose LinkedIn field is not a URL. *)
Definition handle_form : Form := {|
  form_job_id := Some "seo-strategist"; form_name := Some "Ada";
  form_email := Some "ada@example.org";
  form_phone := None; form_linkedin := Some "@ada"; form_portfolio := None;
  form_cover_letter := None; form_consent := Some true;
  form_cv := None; form_portfolio_file := None
|}.

(** A JSON body with fields that the schema does not declare. *)
Definition json_body_with_more : Doc :=
  <["_id" := VStr "000000000000000000000009"]>
 (<["files" := VDict (<["cv" := VStr "cv.pdf"]> ∅)]>
 (<["is_admin" := VBool true]> json_body)).

Definition sample_environ : gmap string string :=
  <["DATABASE_URL" := "mongodb://localhost:27017"]>
 (<["DATABASE_NAME" := ""]> ∅).

(** A document whose [_id] is the number 0, with an [id] of its own. *)
Definition zero_id_doc : Doc :=
  <["_id" := VInt 0]> (<["id" := VStr "legacy-7"]> (<["ref" := VOid 5%N]> ∅)).

(** A lookup in a dictionary written out as insertions. *)
Ltac lookup_literal :=
  repeat first
    [ rewrite lookup_insert_eq
    | rewrite lookup_insert_ne by done
    | rewrite lookup_delete_eq
    | rewrite lookup_delete_ne by done
    | rewrite lookup_empty ].

(** ** Properties *)

(** *** ObjectId and its text *)

Lemma hex_val_hex_char (d : N) :
  (d < 16)%N -> bson.hex_val (bson.hex_char d) = Some d.
Proof.
  intros Hd.
  destruct d as [|p]; [reflexivity|].
  do 4 (destruct p as [p|p|]; try reflexivity; try lia).
Qed.

Lemma is_space_hex_char (d : N) :
  (d < 16)%N -> bson.is_space (bson.hex_char d) = false.
Proof.
  intros Hd.
  destruct d as [|p]; [reflexivity|].
  do 4 (destruct p as [p|p|]; try reflexivity; try lia).
Qed.

Lemma is_continuation_hex_char (d : N) :
  (d < 16)%N -> is_continuation (bson.hex_char d) = false.
Proof.
  intros Hd.
  destruct d as [|p]; [reflexivity|].
  do 4 (destruct p as [p|p|]; try reflexivity; try lia).
Qed.

Lemma byte_of_to_N (b : Byte.byte) : bson.byte_of (Byte.to_N b) = b.
Proof. unfold bson.byte_of. by rewrite Byte.of_to_N. Qed.

Lemma to_N_byte_of (n : N) : (n < 256)%N -> Byte.to_N (bson.byte_of n) = n.
Proof.
  intros Hn. unfold bson.byte_of.
  destruct (Byte.of_N n) as [b|] eqn:Hb.
  - by apply Byte.to_of_N.
  - apply Byte.of_N_None_iff in Hb. lia.
Qed.

Lemma to_N_digits (b : Byte.byte) :
  (Byte.to_N b / 16 < 16)%N /\ (Byte.to_N b mod 16 < 16)%N.
Proof.
  pose proof (Byte.to_N_bounded b) as Hb. split.
  - apply N.Div0.div_lt_upper_bound. lia.
  - apply N.mod_lt. lia.
Qed.

(** Reading the text of an ObjectId gives its bytes back. *)
Lemma fromhex_to_str (o : bson.ObjectId) : bson.fromhex (bson.to_str o) = Some o.
Proof.
  induction o as [|b o IH]; [reflexivity|].
  destruct (to_N_digits b) as [Hhi Hlo].
  cbn [bson.to_str fold_right]. unfold bson.hex_byte at 1.
  cbn [bson.fromhex].
  rewrite (is_space_hex_char _ Hhi), (hex_val_hex_char _ Hhi),
    (hex_val_hex_char _ Hlo).
  fold (bson.to_str o). rewrite IH. cbn [option_map]. do 2 f_equal.
  rewrite <- (byte_of_to_N b) at 3. f_equal.
  pose proof (N.div_mod' (Byte.to_N b) 16). lia.
Qed.

Lemma len_to_str (o : bson.ObjectId) :
  len (bson.to_str o) = (2 * List.length o)%nat.
Proof.
  induction o as [|b o IH]; [reflexivity|].
  destruct (to_N_digits b) as [Hhi Hlo].
  cbn [bson.to_str fold_right]. unfold bson.hex_byte at 1. cbn [len].
  rewrite (is_continuation_hex_char _ Hhi), (is_continuation_hex_char _ Hlo).
  fold (bson.to_str o). rewrite IH. cbn [List.length]. lia.
Qed.

Lemma length_to_bytes (k : nat) : forall (n : N) (acc : list Byte.byte),
  List.length (bson.to_bytes k n acc) = (k + List.length acc)%nat.
Proof.
  induction k as [|k IH]; intros n acc; cbn [bson.to_bytes]; [reflexivity|].
  rewrite IH. cbn [List.length]. lia.
Qed.

Lemma of_str_to_str (o : bson.ObjectId) :
  List.length o = 12%nat -> bson.of_str (bson.to_str o) = Some o.
Proof.
  intros Ho. unfold bson.of_str. rewrite len_to_str, Ho.
  cbn [Nat.mul Nat.add Nat.eqb]. apply fromhex_to_str.
Qed.

Lemma length_generated (n : N) :
  List.length (bson.generated n) = (12 + N.to_nat (n / bson.bound))%nat.
Proof. unfold bson.generated. rewrite length_to_bytes. cbn [List.length]. lia. Qed.

(** The text of a generated identifier reads back as that identifier. *)
Lemma of_str_generated (n : N) :
  (n < bson.bound)%N ->
  bson.of_str (bson.to_str (bson.generated n)) = Some (bson.generated n).
Proof.
  intros Hn. apply of_str_to_str.
  by rewrite length_generated, N.div_small.
Qed.

(** Past the last identifier of twelve bytes, the text is no identifier. *)
Lemma of_str_generated_None (n : N) :
  (bson.bound <= n)%N -> bson.of_str (bson.to_str (bson.generated n)) = None.
Proof.
  intros Hn. unfold bson.of_str. rewrite len_to_str, length_generated.
  assert (0 < n / bson.bound)%N by (apply N.div_str_pos; done).
  destruct (_ =? 24)%nat eqn:Hlen; [|done]. apply Nat.eqb_eq in Hlen. lia.
Qed.

Lemma eqb_eq (a b : bson.ObjectId) : bson.eqb a b = true <-> a = b.
Proof.
  revert b. induction a as [|x a IH]; intros [|y b]; cbn [bson.eqb];
    try done.
  rewrite andb_true_iff, IH. split.
  - intros [Hxy ->]. by rewrite (Byte.byte_dec_bl _ _ Hxy).
  - intros [= -> ->]. split; [by apply Byte.byte_dec_lb|done].
Qed.

Lemma eqb_refl (a : bson.ObjectId) : bson.eqb a a = true.
Proof. by apply eqb_eq. Qed.

Lemma number_to_bytes (k : nat) :
  forall (n : N) (acc : list Byte.byte) (a : N),
    fold_left (fun acc x => (256 * acc + Byte.to_N x)%N)
      (bson.to_bytes k n acc) a
    = fold_left (fun acc x => (256 * acc + Byte.to_N x)%N) acc
        (a * 256 ^ N.of_nat k + n mod 256 ^ N.of_nat k)%N.
Proof.
  induction k as [|k IH]; intros n acc a.
  - cbn [bson.to_bytes]. change (256 ^ N.of_nat 0)%N with 1%N.
    rewrite N.mod_1_r. f_equal. lia.
  - cbn [bson.to_bytes]. rewrite IH. cbn [fold_left].
    rewrite to_N_byte_of by (apply N.mod_lt; lia).
    f_equal.
    rewrite Nat2N.inj_succ, N.pow_succ_r'.
    rewrite (N.Div0.mod_mul_r n 256 (256 ^ N.of_nat k)). lia.
Qed.

(** The bytes of a generated identifier spell its number. *)
Lemma number_generated (n : N) : bson.number (bson.generated n) = n.
Proof.
  unfold bson.number, bson.generated. rewrite number_to_bytes.
  cbn [fold_left]. rewrite N.mul_0_l, N.add_0_l. apply N.mod_small.
  rewrite Nat2N.inj_add, N2Nat.id, N.pow_add_r.
  change (256 ^ N.of_nat 12)%N with bson.bound.
  pose proof (N.pow_gt_lin_r 256 (n / bson.bound) ltac:(lia)) as Hq.
  pose proof (N.div_mod' n bson.bound) as Hn.
  assert (n mod bson.bound < bson.bound)%N by (by apply N.mod_lt).
  nia.
Qed.

Lemma generated_inj (n m : N) : bson.generated n = bson.generated m -> n = m.
Proof. intros Heq. by rewrite <- (number_generated n), Heq, number_generated. Qed.

(** *** Maps of values *)

Lemma map_fold_any (f : value -> bool) (m : Doc) :
  map_fold (fun (_ : string) x acc => f x || acc) false m = true
  <-> exists k v, m !! k = Some v /\ f v = true.
Proof.
  apply (map_fold_weak_ind
    (fun (r : bool) (m : Doc) =>
       r = true <-> exists k v, m !! k = Some v /\ f v = true)).
  - split; [discriminate|].
    intros (k & v & Hk & _). by rewrite lookup_empty in Hk.
  - intros i x m' r Hi IH. rewrite orb_true_iff, IH. split.
    + intros [Hx | (k & v & Hk & Hv)].
      * exists i, x. by rewrite lookup_insert_eq.
      * exists k, v. split; [|done].
        rewrite lookup_insert_ne; [done|]. intros ->. congruence.
    + intros (k & v & Hk & Hv).
      destruct (decide (i = k)) as [->|Hne].
      * rewrite lookup_insert_eq in Hk. left. congruence.
      * rewrite lookup_insert_ne in Hk by done. right. eauto.
Qed.

(** *** serialize_doc *)

Lemma lookup_stringify_loop (m b : Doc) (k : string) :
  map_fold stringify_item b m !! k
  = match m !! k with
    | Some v => if is_ObjectId v then Some (stringified v) else b !! k
    | None => b !! k
    end.
Proof.
  revert k. apply (map_fold_weak_ind
    (fun (r : Doc) (m : Doc) => forall k, r !! k
       = match m !! k with
         | Some v => if is_ObjectId v then Some (stringified v) else b !! k
         | None => b !! k
         end)).
  - intros k. by rewrite lookup_empty.
  - intros i x m' r Hi IH k. unfold stringify_item.
    destruct (decide (i = k)) as [->|Hne].
    + rewrite lookup_insert_eq.
      destruct (is_ObjectId x) eqn:Hx.
      * rewrite lookup_insert_eq. unfold stringified. by rewrite Hx.
      * rewrite IH, Hi. done.
    + rewrite (lookup_insert_ne m') by done.
      destruct (is_ObjectId x); [rewrite lookup_insert_ne by done|]; apply IH.
Qed.

(** The loop replaces every value of the document by its [stringified]. *)
Lemma stringify_loop_fmap (d : Doc) :
  map_fold stringify_item d d = stringified <$> d.
Proof.
  apply map_eq. intros k. rewrite lookup_stringify_loop, lookup_fmap.
  unfold stringified.
  destruct (d !! k) as [v|] eqn:Hk; [|done]. cbn.
  by destruct (is_ObjectId v).
Qed.

Lemma stringified_idemp (v : value) :
  stringified (stringified v) = stringified v.
Proof. unfold stringified. by destruct v. Qed.

Lemma stringified_not_ObjectId (v : value) :
  is_ObjectId (stringified v) = false.
Proof. unfold stringified. by destruct v. Qed.

Lemma truthy_stringified (v : value) : truthy v = false -> stringified v = v.
Proof. unfold stringified. by destruct v. Qed.

Lemma serialize_doc_nonempty (d : Doc) :
  d <> ∅ -> serialize_doc (Some d) = Some (stringified <$> renamed d).
Proof.
  intros Hd. unfold serialize_doc, renamed. cbn [truthy].
  rewrite bool_decide_eq_false_2 by done. cbn [negb].
  by rewrite stringify_loop_fmap.
Qed.

Lemma renamed_stringified_renamed (d : Doc) :
  renamed (stringified <$> renamed d) = stringified <$> renamed d.
Proof.
  unfold renamed at 1. unfold dict_get at 1.
  rewrite lookup_fmap.
  unfold renamed. destruct (truthy (dict_get d "_id")) eqn:Hid.
  - rewrite lookup_insert_ne by done. rewrite lookup_delete_eq. done.
  - unfold dict_get in Hid.
    destruct (d !! "_id") as [v|] eqn:Hv; cbn in *; [|done].
    rewrite (truthy_stringified v Hid). by rewrite Hid.
Qed.

(** C2.  Serialization is idempotent: serializing the result of
    [serialize_doc] again gives the same mapping (and [None] stays
    [None]). *)
Theorem serialize_doc_idempotent (doc : option Doc) :
  serialize_doc (serialize_doc doc) = serialize_doc doc.
Proof.
  destruct doc as [d|]; [|reflexivity].
  destruct (decide (d = ∅)) as [->|Hd]; [reflexivity|].
  rewrite (serialize_doc_nonempty d Hd).
  set (d1 := stringified <$> renamed d).
  destruct (decide (d1 = ∅)) as [->|Hd1]; [reflexivity|].
  rewrite (serialize_doc_nonempty d1 Hd1). f_equal. subst d1.
  rewrite renamed_stringified_renamed.
  rewrite <- map_fmap_compose. apply map_fmap_ext.
  intros k v _. apply stringified_idemp.
Qed.

(** *** The store *)

Lemma store_call_Some {A} (op : pymongo.Database -> A * pymongo.Database)
    (d : pymongo.Database) :
  store_call op (Some d)
  = if fails d
    then (Raise (Raised StoreError), Some (pymongo.tick d))
    else (Return (op (pymongo.tick d)).1, Some (op (pymongo.tick d)).2).
Proof.
  unfold store_call, fails. case_bool_decide; [done|].
  by destruct (op (pymongo.tick d)).
Qed.

Lemma serving_not_fails (d : pymongo.Database) : serving d -> fails d = false.
Proof.
  unfold serving, fails. intros ->. apply bool_decide_eq_false_2.
  apply not_elem_of_nil.
Qed.

Lemma serving_tick (d : pymongo.Database) : serving d -> serving (pymongo.tick d).
Proof. done. Qed.

Lemma serving_inserted name payload (d : pymongo.Database) :
  serving d -> serving (inserted name payload d).
Proof. done. Qed.

Lemma find_one_Some name oid (d : pymongo.Database) :
  find_one name oid (Some d)
  = if fails d
    then (Raise (Raised StoreError), Some (pymongo.tick d))
    else (Return (pymongo.lookup_id oid (pymongo.collection d name)),
          Some (pymongo.tick d)).
Proof. unfold find_one. by rewrite store_call_Some. Qed.

Lemma create_document_Some name data (d : pymongo.Database) :
  create_document name data (Some d)
  = if fails d
    then (Raise (Raised StoreError), Some (pymongo.tick d))
    else (Return (bson.to_str (pymongo.next_oid d)),
          Some (inserted name data d)).
Proof.
  unfold create_document, bind. rewrite store_call_Some.
  by destruct (fails d).
Qed.

Lemma create_document_None name data :
  create_document name data None = (Raise (Raised NoDatabase), None).
Proof. reflexivity. Qed.

Lemma collection_tick (d : pymongo.Database) name :
  pymongo.collection (pymongo.tick d) name = pymongo.collection d name.
Proof. reflexivity. Qed.

Lemma collection_inserted name payload (d : pymongo.Database) :
  pymongo.collection (inserted name payload d) name
  = pymongo.collection d name ++ [stored (pymongo.next_oid d) payload].
Proof.
  unfold inserted, pymongo.store, pymongo.collection at 1. cbn.
  by rewrite lookup_insert_eq.
Qed.

Lemma collection_inserted_ne name name' payload (d : pymongo.Database) :
  name <> name' ->
  pymongo.collection (inserted name payload d) name'
  = pymongo.collection d name'.
Proof.
  intros Hne. unfold inserted, pymongo.store, pymongo.collection at 1. cbn.
  by rewrite lookup_insert_ne.
Qed.

Lemma has_id_stored oid payload : pymongo.has_id oid (stored oid payload) = true.
Proof.
  unfold pymongo.has_id, stored. rewrite lookup_insert_eq. apply eqb_refl.
Qed.

Lemma lookup_id_fresh oid (docs : list Doc) (doc : Doc) :
  forallb (fun x => negb (pymongo.has_id oid x)) docs = true ->
  pymongo.has_id oid doc = true ->
  pymongo.lookup_id oid (docs ++ [doc]) = Some doc.
Proof.
  unfold pymongo.lookup_id. intros Hfresh Hdoc.
  induction docs as [|x docs IH]; cbn in *.
  - by rewrite Hdoc.
  - apply andb_true_iff in Hfresh as [Hx Hrest].
    apply negb_true_iff in Hx. rewrite Hx. by apply IH.
Qed.

Lemma lookup_id_truthy oid (docs : list Doc) (doc : Doc) :
  pymongo.lookup_id oid docs = Some doc -> truthy (VDict doc) = true.
Proof.
  unfold pymongo.lookup_id. intros Hfind.
  apply find_some in Hfind as [_ Hid]. unfold pymongo.has_id in Hid.
  cbn. apply negb_true_iff, bool_decide_eq_false_2. intros ->.
  by rewrite lookup_empty in Hid.
Qed.

Lemma lookup_id_appended name payload (d : pymongo.Database) :
  next_oid_fresh name d = true ->
  (pymongo.lookup_id (pymongo.next_oid d)
     (pymongo.collection d name ++ [stored (pymongo.next_oid d) payload]))
  = Some (stored (pymongo.next_oid d) payload).
Proof.
  unfold next_oid_fresh. intros [_ Hfresh]%andb_true_iff.
  apply lookup_id_fresh; [done|apply has_id_stored].
Qed.

(** After an insertion in a fresh store, the identifier that
    [create_document] returned reads back the document just stored. *)
Lemma lookup_id_inserted name payload (d : pymongo.Database) :
  next_oid_fresh name d = true ->
  (pymongo.lookup_id (pymongo.next_oid d)
     (pymongo.collection (inserted name payload d) name))
  = Some (stored (pymongo.next_oid d) payload).
Proof.
  intros Hfresh. rewrite collection_inserted. by apply lookup_id_appended.
Qed.

(** *** The steps of the handlers *)

Lemma ObjectId_is_valid_new (v : value) :
  ObjectId_is_valid v = true -> exists oid, ObjectId_new v = Some oid.
Proof.
  unfold ObjectId_is_valid. intros [_ Hnew]%andb_true_iff.
  by apply bool_decide_eq_true_1 in Hnew as [oid Hoid]; exists oid.
Qed.

Lemma ObjectId_is_valid_truthy (v : value) :
  ObjectId_is_valid v = true -> truthy v = true.
Proof. unfold ObjectId_is_valid. by intros [Ht _]%andb_true_iff. Qed.

Lemma job_known_valid (d : pymongo.Database) (s : string) :
  job_known d (VStr s) = true -> ObjectId_is_valid (VStr s) = true.
Proof.
  unfold job_known, ObjectId_is_valid. cbn [ObjectId_new truthy].
  destruct (bson.of_str s) as [oid|] eqn:Hoid; [|done].
  intros _. apply andb_true_iff. split.
  - unfold bson.of_str in Hoid. by destruct s.
  - apply bool_decide_eq_true_2. by exists oid.
Qed.

(** The text of an identifier is accepted by [ObjectId(...)]. *)
Lemma ObjectId_to_str (n : N) (db : World) :
  ObjectId (VStr (bson.to_str n)) db
  = if (n <? bson.bound)%N then (Return (bson.generated n), db)
    else (Raise (Raised InvalidId), db).
Proof.
  unfold ObjectId. cbn [ObjectId_new].
  destruct (n <? bson.bound)%N eqn:Hn.
  - apply N.ltb_lt in Hn. by rewrite of_str_generated.
  - apply N.ltb_ge in Hn. by rewrite of_str_generated_None.
Qed.

Lemma next_oid_fresh_bound name (d : pymongo.Database) :
  next_oid_fresh name d = true -> (pymongo.next_oid d <? bson.bound)%N = true.
Proof. unfold next_oid_fresh. by intros [? _]%andb_true_iff. Qed.

(** The identifier handed out next is one of twelve bytes. *)
Ltac next_oid_below d H :=
  rewrite (next_oid_fresh_bound _ d H); cbn [negb].

(** Without a valid identifier the existence check does not reach the
    store. *)
Lemma validate_job_exists_skip (jid : value) (db : World) :
  ObjectId_is_valid jid = false -> validate_job_exists jid db = (Return tt, db).
Proof.
  intros Hv. unfold validate_job_exists. rewrite Hv.
  by rewrite andb_false_r.
Qed.

Lemma validate_job_exists_check (jid : value) (d : pymongo.Database) :
  ObjectId_is_valid jid = true ->
  validate_job_exists jid (Some d)
  = if fails d
    then (Raise (Raised StoreError), Some (pymongo.tick d))
    else if job_known d jid
         then (Return tt, Some (pymongo.tick d))
         else (Raise (HTTPException 404 (Text "Job not found for application")),
               Some (pymongo.tick d)).
Proof.
  intros Hv. unfold validate_job_exists.
  rewrite Hv, (ObjectId_is_valid_truthy _ Hv). cbn [andb].
  destruct (ObjectId_is_valid_new _ Hv) as [oid Hoid].
  unfold bind, ObjectId, job_known. rewrite Hoid. cbn [ret].
  rewrite find_one_Some. destruct (fails d); [done|].
  destruct (pymongo.lookup_id oid (pymongo.collection d "job")) as [doc|] eqn:Hdoc.
  - cbn [from_option]. rewrite (lookup_id_truthy _ _ _ Hdoc). cbn [negb].
    rewrite bool_decide_eq_true_2 by eauto. done.
  - cbn [from_option truthy negb].
    rewrite bool_decide_eq_false_2; [done|]. by intros [? ?].
Qed.

Lemma validate_job_exists_None (jid : value) :
  ObjectId_is_valid jid = true ->
  validate_job_exists jid None = (Raise (Raised NoDatabase), None).
Proof.
  intros Hv. unfold validate_job_exists.
  rewrite Hv, (ObjectId_is_valid_truthy _ Hv). cbn [andb].
  destruct (ObjectId_is_valid_new _ Hv) as [oid Hoid].
  unfold bind, ObjectId. by rewrite Hoid.
Qed.

Lemma insert_and_fetch_None (payload : Doc) :
  insert_and_fetch payload None = (Raise (Raised NoDatabase), None).
Proof. reflexivity. Qed.

(** Lines 185-187 of [apply] on a database: the insertion can fail, and
    so can the lookup that follows a successful insertion. *)
Lemma insert_and_fetch_Some (payload : Doc) (d : pymongo.Database) :
  insert_and_fetch payload (Some d)
  = if fails d
    then (Raise (Raised StoreError), Some (pymongo.tick d))
    else
      let d1 := inserted "application" payload d in
      if negb (pymongo.next_oid d <? bson.bound)%N
      then (Raise (Raised InvalidId), Some d1)
      else if fails d1
      then (Raise (Raised StoreError), Some (pymongo.tick d1))
      else (Return (serialize_doc
                      (pymongo.lookup_id (pymongo.next_oid d)
                         (pymongo.collection d1 "application"))),
            Some (pymongo.tick d1)).
Proof.
  unfold insert_and_fetch, bind. rewrite create_document_Some.
  destruct (fails d); [done|].
  rewrite ObjectId_to_str. cbn zeta.
  destruct (pymongo.next_oid d <? bson.bound)%N; [|done]. cbn [negb].
  rewrite find_one_Some.
  by destruct (fails (inserted "application" payload d)).
Qed.

Lemma bind_bind_ret {A B C} (m : M A) (b : B) (k : B -> M C) (db : World) :
  (let! x := (let! _ := m in ret b) in k x) db = (let! _ := m in k b) db.
Proof. unfold bind, ret. by destruct (m db) as [[a|e] db']. Qed.

Lemma form_payload_job_id j n e p l f c k :
  dict_get (form_payload j n e p l f c k) "job_id" = of_optional j.
Proof. unfold dict_get, form_payload. by rewrite lookup_insert_eq. Qed.

(** [apply] on a form submission: the existence check on the submitted
    [job_id], then the insertion of the form's payload. *)
Lemma apply_form (request : starlette.Request) (form : Form) (db : World) :
  form_mode request (form_job_id form) = true ->
  POST_careers_apply request form db
  = submit (of_optional (form_job_id form)) (form_document form) db.
Proof.
  unfold form_mode. intros Hmode.
  unfold submit, POST_careers_apply, apply, route, try_except_HTTPException.
  rewrite Hmode. rewrite form_payload_job_id.
  by rewrite bind_bind_ret.
Qed.

(** [apply] on a JSON submission whose body passes the schema. *)
Lemma apply_json (request : starlette.Request) (form : Form) (db : World)
    (m : Doc) (a : schemas.Application) :
  form_mode request (form_job_id form) = false ->
  starlette.json request = Some (VDict m) ->
  schemas.validate V m = Some a ->
  POST_careers_apply request form db
  = submit (VStr (schemas.job_id a)) (schemas.dict a) db.
Proof.
  unfold form_mode. intros Hmode Hjson Hvalid.
  unfold submit, POST_careers_apply, apply, route, try_except_HTTPException.
  rewrite Hmode. unfold request_json, Application. rewrite Hjson.
  unfold bind at 1 2. cbn [ret]. unfold bind at 1. rewrite Hvalid. cbn [ret].
  replace (dict_get (schemas.dict a) "job_id") with (VStr (schemas.job_id a))
    by (unfold dict_get, schemas.dict; by rewrite lookup_insert_eq).
  unfold insert_and_fetch, bind, ret.
  destruct (validate_job_exists (VStr (schemas.job_id a)) db)
    as [[[]|e] db']; reflexivity.
Qed.

(** [apply] on a JSON submission whose body is not JSON, is not a mapping
    or fails the schema: a 500, before any call to the store. *)
Lemma apply_json_rejected (request : starlette.Request) (form : Form)
    (db : World) :
  form_mode request (form_job_id form) = false ->
  match starlette.json request with
  | Some (VDict m) => schemas.validate V m = None
  | _ => True
  end ->
  exists e, POST_careers_apply request form db
            = (starlette.Error 500 (StrOf e), db).
Proof.
  unfold form_mode. intros Hmode Hbody.
  unfold POST_careers_apply, apply, route, try_except_HTTPException.
  rewrite Hmode. unfold request_json, Application, bind.
  destruct (starlette.json request) as [data|]; [|by eexists].
  cbn [ret]. destruct data; try by eexists.
  rewrite Hbody. by eexists.
Qed.

(** *** A submission, once its payload is built *)

(** The submission goes through: the check is skipped or finds the job,
    the store serves the calls and hands out a fresh identifier. *)
Lemma submit_accepted (jid : value) (payload : Doc) (d : pymongo.Database) :
  serving d ->
  next_oid_fresh "application" d = true ->
  ObjectId_is_valid jid = false \/ job_known d jid = true ->
  exists d',
    submit jid payload (Some d)
    = (starlette.Content 201
         (serialize_doc (Some (stored (pymongo.next_oid d) payload))),
       Some d')
    /\ pymongo.collection d' "application"
       = pymongo.collection d "application"
         ++ [stored (pymongo.next_oid d) payload]
    /\ pymongo.collection d' "job" = pymongo.collection d "job"
    /\ pymongo.calls d'
       = ((if ObjectId_is_valid jid then 3 else 2) + pymongo.calls d)%nat.
Proof.
  intros Hs Hfresh Hgate.
  unfold submit, route, try_except_HTTPException, bind.
  destruct (ObjectId_is_valid jid) eqn:Hv.
  - destruct Hgate as [|Hknown]; [done|].
    rewrite (validate_job_exists_check _ _ Hv).
    rewrite (serving_not_fails _ Hs), Hknown.
    rewrite insert_and_fetch_Some. cbn zeta.
    rewrite !serving_not_fails by done. next_oid_below (pymongo.tick d) Hfresh.
    rewrite (lookup_id_inserted "application" payload (pymongo.tick d)) by done.
    eexists. split; [reflexivity|]. cbn [pymongo.collection pymongo.tick].
    split; [apply (collection_inserted "application" payload (pymongo.tick d))|].
    split; [|done].
    by apply (collection_inserted_ne "application" "job" payload (pymongo.tick d)).
  - rewrite (validate_job_exists_skip _ _ Hv).
    rewrite insert_and_fetch_Some. cbn zeta.
    rewrite !serving_not_fails by done. next_oid_below d Hfresh.
    rewrite (lookup_id_inserted "application" payload d) by done.
    eexists. split; [reflexivity|].
    split; [apply (collection_inserted "application" payload d)|].
    split; [|done].
    by apply (collection_inserted_ne "application" "job" payload d).
Qed.

(** A valid identifier of no job: 404 after one call, nothing inserted. *)
Lemma submit_unknown_job (jid : value) (payload : Doc) (d : pymongo.Database) :
  serving d ->
  ObjectId_is_valid jid = true ->
  job_known d jid = false ->
  submit jid payload (Some d)
  = (starlette.Error 404 (Text "Job not found for application"),
     Some (pymongo.tick d)).
Proof.
  intros Hs Hv Hknown.
  unfold submit, route, try_except_HTTPException, bind.
  rewrite (validate_job_exists_check _ _ Hv).
  by rewrite (serving_not_fails _ Hs), Hknown.
Qed.

(** Whatever the store does, a submission ends in one of three ways, and
    a document it adds is the payload under an identifier. *)
Lemma submit_outcomes (jid : value) (payload : Doc) (db : World) :
  (exists body oid,
      (submit jid payload db).1 = starlette.Content 201 body
      /\ documents "application" (submit jid payload db).2
         = documents "application" db ++ [stored oid payload]
      /\ forall d, db = Some d -> next_oid_fresh "application" d = true ->
           body = serialize_doc (Some (stored oid payload)))
  \/ (exists status detail,
      (submit jid payload db).1 = starlette.Error status detail
      /\ documents "application" (submit jid payload db).2
         = documents "application" db)
  \/ (exists e oid,
      (submit jid payload db).1 = starlette.Error 500 (StrOf e)
      /\ documents "application" (submit jid payload db).2
         = documents "application" db ++ [stored oid payload]).
Proof.
  assert (Hins : forall d0 : pymongo.Database,
    pymongo.collection d0 "application" = documents "application" db ->
    (forall d, db = Some d ->
       pymongo.next_oid d0 = pymongo.next_oid d) ->
    let r := route 201 (try_except_HTTPException (insert_and_fetch payload))
               (Some d0) in
    (exists body oid, r.1 = starlette.Content 201 body
       /\ documents "application" r.2
          = documents "application" db ++ [stored oid payload]
       /\ forall d, db = Some d -> next_oid_fresh "application" d = true ->
            body = serialize_doc (Some (stored oid payload)))
    \/ (exists status detail, r.1 = starlette.Error status detail
       /\ documents "application" r.2 = documents "application" db)
    \/ (exists e oid, r.1 = starlette.Error 500 (StrOf e)
       /\ documents "application" r.2
          = documents "application" db ++ [stored oid payload])).
  { intros d0 Hcoll Hnext.
    assert (Hfresh0 : forall d, db = Some d ->
      next_oid_fresh "application" d = true ->
      next_oid_fresh "application" d0 = true).
    { intros d Hd. unfold next_oid_fresh.
      rewrite Hcoll, (Hnext d Hd). by subst db. }
    unfold route, try_except_HTTPException.
    rewrite insert_and_fetch_Some. cbn zeta.
    destruct (fails d0).
    { right; left. by eexists _, _. }
    destruct (pymongo.next_oid d0 <? bson.bound)%N; cbn [negb].
    2:{ right; right. eexists _, _. split; [done|].
        cbn [snd documents from_option].
        rewrite collection_inserted. by rewrite Hcoll. }
    destruct (fails (inserted "application" payload d0)).
    - right; right. eexists _, _. split; [done|].
      cbn [snd documents from_option].
      rewrite collection_tick, collection_inserted. by rewrite Hcoll.
    - left. eexists _, _. split; [done|]. cbn [snd fst documents from_option].
      rewrite collection_tick, collection_inserted.
      split; [by rewrite Hcoll|].
      intros d Hd Hfresh. f_equal.
      apply lookup_id_appended. by apply (Hfresh0 d). }
  unfold submit.
  destruct (ObjectId_is_valid jid) eqn:Hv.
  - destruct db as [d|].
    + unfold route, try_except_HTTPException, bind.
      rewrite (validate_job_exists_check _ _ Hv).
      destruct (fails d); [right; left; by eexists _, _|].
      destruct (job_known d jid); [|right; left; by eexists _, _].
      apply (Hins (pymongo.tick d)); [done|]. by intros ? [= <-].
    + unfold route, try_except_HTTPException, bind.
      rewrite (validate_job_exists_None _ Hv). right; left. by eexists _, _.
  - unfold route, try_except_HTTPException, bind.
    rewrite (validate_job_exists_skip _ _ Hv).
    destruct db as [d|].
    + apply (Hins d); [done|]. by intros ? [= <-].
    + right; left. by eexists _, _.
Qed.

(** *** get_job *)

(** C3.  [GET /careers/jobs/{id}], the store serving its calls: an id that
    is not a valid identifier is answered 400 "Invalid job id" whatever
    the state of [db], which is left untouched (no call is counted); a
    valid id of no job document is answered 404 "Job not found"; a valid
    id of a job document is answered with that document, serialized. *)
Theorem get_job_responses (job_id : string) (d : pymongo.Database) :
  serving d ->
  (ObjectId_is_valid (VStr job_id) = false ->
   forall db : World,
     GET_careers_jobs_id job_id db
     = (starlette.Error 400 (Text "Invalid job id"), db))
  /\ (ObjectId_is_valid (VStr job_id) = true ->
      exists oid,
        ObjectId_new (VStr job_id) = Some oid
        /\ match pymongo.lookup_id oid (pymongo.collection d "job") with
           | None =>
               GET_careers_jobs_id job_id (Some d)
               = (starlette.Error 404 (Text "Job not found"),
                  Some (pymongo.tick d))
           | Some doc =>
               GET_careers_jobs_id job_id (Some d)
               = (starlette.Content 200 (serialize_doc (Some doc)),
                  Some (pymongo.tick d))
           end).
Proof.
  intros Hs. unfold GET_careers_jobs_id, get_job, route,
    try_except_HTTPException. split.
  - intros Hv db. by rewrite Hv.
  - intros Hv. rewrite Hv. cbn [negb].
    destruct (ObjectId_is_valid_new _ Hv) as [oid Hoid].
    exists oid. split; [done|].
    unfold bind, ObjectId. rewrite Hoid. cbn [ret].
    rewrite find_one_Some, (serving_not_fails _ Hs).
    destruct (pymongo.lookup_id oid (pymongo.collection d "job"))
      as [doc|] eqn:Hdoc; [|done].
    cbn [from_option]. by rewrite (lookup_id_truthy _ _ _ Hdoc).
Qed.

(** *** apply *)

Lemma apply_decoded (request : starlette.Request) (form : Form) (db : World) :
  match decoded request form with
  | Some (jid, payload) =>
      POST_careers_apply request form db = submit jid payload db
  | None =>
      exists e, POST_careers_apply request form db
                = (starlette.Error 500 (StrOf e), db)
  end.
Proof.
  unfold decoded.
  destruct (form_mode request (form_job_id form)) eqn:Hmode.
  - by apply apply_form.
  - destruct (starlette.json request) as [data|] eqn:Hjson.
    + destruct data as [| | | | | | |m];
        try (apply apply_json_rejected; [done|by rewrite Hjson]).
      destruct (schemas.validate V m) as [a|] eqn:Hvalid; cbn [fmap option_fmap option_map].
      * by apply apply_json with m.
      * apply apply_json_rejected; [done|by rewrite Hjson].
    + apply apply_json_rejected; [done|by rewrite Hjson].
Qed.

(** C4, amended.  The store serving its calls and handing out a fresh
    identifier, an application is gated on the [job_id] that the handler
    reads: the form field in form mode, the validated field of the body in
    JSON mode.  When it is a valid identifier of no job, the answer is 404
    "Job not found for application" and nothing is inserted; when it is
    empty, missing or not a valid identifier, the submission is accepted
    after two calls to the store (the insertion and its read-back: no
    existence check); when it is the identifier of a job, the submission
    is accepted.  A JSON body that the schema rejects is answered 500 and
    never reaches the store. *)
Theorem apply_job_gate (request : starlette.Request) (form : Form)
    (d : pymongo.Database) :
  serving d ->
  next_oid_fresh "application" d = true ->
  match decoded request form with
  | Some (jid, payload) =>
      if ObjectId_is_valid jid
      then
        if job_known d jid
        then accepted 3 (stored (pymongo.next_oid d) payload) d
               (POST_careers_apply request form (Some d))
        else POST_careers_apply request form (Some d)
             = (starlette.Error 404 (Text "Job not found for application"),
                Some (pymongo.tick d))
      else accepted 2 (stored (pymongo.next_oid d) payload) d
             (POST_careers_apply request form (Some d))
  | None =>
      exists e, POST_careers_apply request form (Some d)
                = (starlette.Error 500 (StrOf e), Some d)
  end.
Proof.
  intros Hs Hfresh.
  pose proof (apply_decoded request form (Some d)) as Happly.
  destruct (decoded request form) as [[jid payload]|]; [|done].
  rewrite Happly. clear Happly.
  destruct (ObjectId_is_valid jid) eqn:Hv.
  - destruct (job_known d jid) eqn:Hknown.
    + destruct (submit_accepted jid payload d Hs Hfresh) as (d' & -> & ? & ? & ?);
        [by right|].
      exists d'. rewrite Hv in *. done.
    + by apply submit_unknown_job.
  - destruct (submit_accepted jid payload d Hs Hfresh) as (d' & -> & ? & ? & ?);
      [by left|].
    exists d'. rewrite Hv in *. done.
Qed.

(** A submission on a database, call by call: the existence check when
    [jid] is a valid identifier, the insertion, the read-back. *)
Lemma submit_Some (jid : value) (payload : Doc) (d : pymongo.Database) :
  next_oid_fresh "application" d = true ->
  let d0 := if ObjectId_is_valid jid then pymongo.tick d else d in
  let d1 := inserted "application" payload d0 in
  submit jid payload (Some d)
  = if ObjectId_is_valid jid && fails d
    then (starlette.Error 500 (StrOf StoreError), Some (pymongo.tick d))
    else if ObjectId_is_valid jid && negb (job_known d jid)
    then (starlette.Error 404 (Text "Job not found for application"),
          Some (pymongo.tick d))
    else if fails d0
    then (starlette.Error 500 (StrOf StoreError), Some (pymongo.tick d0))
    else if fails d1
    then (starlette.Error 500 (StrOf StoreError), Some (pymongo.tick d1))
    else (starlette.Content 201
            (serialize_doc (Some (stored (pymongo.next_oid d) payload))),
          Some (pymongo.tick d1)).
Proof.
  intros Hfresh. cbv zeta.
  unfold submit, route, try_except_HTTPException, bind.
  destruct (ObjectId_is_valid jid) eqn:Hv; cbn [andb].
  - rewrite (validate_job_exists_check _ _ Hv).
    destruct (fails d); [done|].
    destruct (job_known d jid); [|done]. cbn [negb].
    rewrite insert_and_fetch_Some. cbv zeta.
    destruct (fails (pymongo.tick d)); [done|].
    next_oid_below (pymongo.tick d) Hfresh.
    destruct (fails (inserted "application" payload (pymongo.tick d))); [done|].
    by rewrite (lookup_id_inserted "application" payload (pymongo.tick d)).
  - rewrite (validate_job_exists_skip _ _ Hv).
    rewrite insert_and_fetch_Some. cbv zeta.
    destruct (fails d); [done|]. next_oid_below d Hfresh.
    destruct (fails (inserted "application" payload d)); [done|].
    by rewrite (lookup_id_inserted "application" payload d).
Qed.

Lemma submit_None (jid : value) (payload : Doc) :
  submit jid payload None = (starlette.Error 500 (StrOf NoDatabase), None).
Proof.
  unfold submit, route, try_except_HTTPException, bind.
  destruct (ObjectId_is_valid jid) eqn:Hv.
  - by rewrite (validate_job_exists_None _ Hv).
  - by rewrite (validate_job_exists_skip _ _ Hv).
Qed.

(** C6, amended.  The store handing out an identifier that is not in use,
    an application submission persists one document at most, and how it
    ends is decided by the calls that the store serves.  A JSON body that
    is rejected, a process without a database, an existence check that
    fails or finds no job, an insertion that fails: an error, and the
    applications are what they were.  An insertion that is served and a
    read-back that fails: a 500, and the document is in the applications
    all the same.  Every call served: a 201 with the stored document,
    serialized, and that one document added. *)
Theorem apply_outcomes (request : starlette.Request) (form : Form) (db : World) :
  (forall d, db = Some d -> next_oid_fresh "application" d = true) ->
  let r := POST_careers_apply request form db in
  let before := documents "application" db in
  let after := documents "application" r.2 in
  match decoded request form, db with
  | Some (jid, payload), Some d =>
      let doc := stored (pymongo.next_oid d) payload in
      let checked := ObjectId_is_valid jid in
      let d0 := if checked then pymongo.tick d else d in
      if checked && (fails d || negb (job_known d jid))
      then (* the existence check fails or finds no job *)
        (exists status detail, r.1 = starlette.Error status detail)
        /\ after = before
      else if fails d0
      then (* the insertion fails *)
        r.1 = starlette.Error 500 (StrOf StoreError) /\ after = before
      else if fails (inserted "application" payload d0)
      then (* the insertion is served and the read-back fails *)
        r.1 = starlette.Error 500 (StrOf StoreError)
        /\ after = before ++ [doc]
      else
        r.1 = starlette.Content 201 (serialize_doc (Some doc))
        /\ after = before ++ [doc]
  | _, _ => (* a rejected JSON body, or no database *)
      (exists status detail, r.1 = starlette.Error status detail)
      /\ after = before
  end.
Proof.
  intros Hfresh. cbv zeta.
  pose proof (apply_decoded request form db) as Happly.
  destruct (decoded request form) as [[jid payload]|].
  - rewrite Happly. clear Happly. destruct db as [d|].
    + rewrite (submit_Some jid payload d (Hfresh d eq_refl)). cbv zeta.
      destruct (ObjectId_is_valid jid); cbn [andb].
      * destruct (fails d); cbn [orb]; [by split; [eexists _, _|]|].
        destruct (job_known d jid); cbn [negb];
          [|by split; [eexists _, _|]].
        destruct (fails (pymongo.tick d)); [done|].
        destruct (fails (inserted "application" payload (pymongo.tick d)));
          cbn [fst snd documents from_option];
          by rewrite collection_tick, collection_inserted.
      * destruct (fails d); [done|].
        destruct (fails (inserted "application" payload d));
          cbn [fst snd documents from_option];
          by rewrite collection_tick, collection_inserted.
    + rewrite submit_None. by split; [eexists _, _|].
  - destruct Happly as [e ->]. split; [by eexists _, _|done].
Qed.

(** *** serialize_doc on a stored document *)

(** What does hold of every stored document: the identifier moves to
    [id] as text, and no value of the top level is an ObjectId. *)
Lemma serialize_doc_top_level (d : Doc) (oid : bson.ObjectId) :
  d !! "_id" = Some (VOid oid) ->
  exists d',
    serialize_doc (Some d) = Some d'
    /\ d' !! "id" = Some (VStr (bson.to_str oid))
    /\ d' !! "_id" = None
    /\ forall k v, d' !! k = Some v -> is_ObjectId v = false.
Proof.
  intros Hid.
  assert (Hd : d <> ∅) by (intros ->; by rewrite lookup_empty in Hid).
  rewrite (serialize_doc_nonempty d Hd). eexists. split; [done|].
  unfold renamed, dict_get. rewrite Hid.
  cbn [default from_option id truthy py_str].
  rewrite !lookup_fmap. lookup_literal. repeat split; [done..|].
  intros k v Hk. rewrite lookup_fmap in Hk.
  destruct (_ !! k) as [x|]; [|done]. injection Hk as <-.
  apply stringified_not_ObjectId.
Qed.

(** C1.  The document [{"_id": ObjectId(1), "title": ..., "owner":
    {"ref": ObjectId(2)}}] is serialized with [id] set to the text of its
    identifier, but the ObjectId under [owner] stays as it is: the loop
    converts the values of the top level only. *)
Theorem serialize_doc_keeps_nested_ObjectId :
  exists d',
    serialize_doc (Some nested_doc) = Some d'
    /\ d' !! "id" = Some (VStr "000000000000000000000001")
    /\ d' !! "owner" = Some (VDict (<["ref" := VOid 2%N]> ∅))
    /\ has_ObjectId (VDict d') = true.
Proof.
  assert (Hd : nested_doc <> ∅).
  { intros Hd. by assert (nested_doc !! "_id" = None) by by rewrite Hd. }
  rewrite (serialize_doc_nonempty _ Hd). eexists. split; [done|].
  unfold renamed, nested_doc, dict_get. lookup_literal.
  cbn [default from_option id truthy py_str].
  rewrite !lookup_fmap. lookup_literal.
  split; [done|]. split; [done|].
  cbn [has_ObjectId]. apply map_fold_any.
  exists "owner", (VDict (<["ref" := VOid 2%N]> ∅)).
  rewrite lookup_fmap. lookup_literal. split; [done|].
  cbn [has_ObjectId]. apply map_fold_any.
  exists "ref", (VOid 2%N). by lookup_literal.
Qed.

(** *** The two modes of apply *)

Lemma validate_without_name (m : Doc) :
  m !! "name" = None -> schemas.validate V m = None.
Proof.
  intros Hname.
  assert (Hn : pydantic.required m "name" (pydantic.str_validator V) = None)
    by (unfold pydantic.required; by rewrite Hname).
  unfold schemas.validate. rewrite Hn.
  by destruct (pydantic.required m "job_id" _).
Qed.

Lemma json_of_form_name (form : Form) :
  form_name form = None -> json_of_form form !! "name" = None.
Proof.
  intros Hname. unfold json_of_form. rewrite Hname. cbn [fold_left fmap option_fmap option_map].
  repeat (match goal with
          | |- context [match ?o with Some _ => _ | None => _ end] =>
              destruct o
          end; cbn [fmap option_fmap option_map]);
    by lookup_literal.
Qed.

(** A JSON body without [name] is rejected by the schema, before the
    store is reached. *)
Lemma json_without_name_rejected (request : starlette.Request) (form : Form)
    (m : Doc) (db : World) :
  form_mode request (form_job_id form) = false ->
  starlette.json request = Some (VDict m) ->
  m !! "name" = None ->
  POST_careers_apply request form db
  = (starlette.Error 500 (StrOf ValidationError), db).
Proof.
  unfold form_mode. intros Hmode Hjson Hname.
  unfold POST_careers_apply, apply, route, try_except_HTTPException.
  rewrite Hmode. unfold request_json, Application, bind. rewrite Hjson.
  cbn [ret]. by rewrite (validate_without_name m Hname).
Qed.

(** C5.  There is applicant data without [name], a job reference and an
    e-mail address, that the form path accepts (201, one document
    stored) and that the JSON path rejects on the schema, with nothing
    stored. *)
Theorem dual_mode_gap :
  exists data : Form,
    form_name data = None
    /\ (exists doc d',
          POST_careers_apply multipart_request data (Some empty_db)
          = (starlette.Content 201 (serialize_doc (Some doc)), Some d')
          /\ pymongo.collection d' "application" = [doc])
    /\ POST_careers_apply (json_request (VDict (json_of_form data))) no_form
         (Some empty_db)
       = (starlette.Error 500 (StrOf ValidationError), Some empty_db).
Proof.
  exists nameless_form. split; [done|]. split.
  - rewrite apply_form by done.
    destruct (submit_accepted (of_optional (form_job_id nameless_form))
                (form_document nameless_form) empty_db)
      as (d' & -> & Hdocs & _); [done|done|by left|].
    by eexists _, d'.
  - by apply json_without_name_rejected with (json_of_form nameless_form).
Qed.

(** *** seed_jobs *)

(** The seed route, whatever the state of [db]. *)
Lemma POST_careers_seed_raises (db : World) :
  POST_careers_seed db
  = (starlette.Error 500
       (StrOf (if db is Some _ then NotImplementedError else NoDatabase)),
     db).
Proof. destruct db; reflexivity. Qed.

(** C7.  The seed operation does not seed.  On a database handle its
    condition [if db] raises, which the generic handler turns into a 500
    before any call reaches the store; without a database the condition
    is false, no job is counted and the first insertion raises.  So every
    call is answered 500 and leaves the store as it was, and two calls in
    a row on a store without jobs leave it without jobs. *)
Theorem seed_jobs_never_seeds (db : World) :
  POST_careers_seed db
  = (starlette.Error 500
       (StrOf (if db is Some _ then NotImplementedError else NoDatabase)),
     db)
  /\ after_all [Call_seed; Call_seed] db = db.
Proof.
  split; [apply POST_careers_seed_raises|].
  unfold after_all. cbn [fold_left after].
  rewrite POST_careers_seed_raises. cbn [snd].
  by rewrite POST_careers_seed_raises.
Qed.

(** *** The payload of a form submission *)

Lemma has_bytes_dict (m : Doc) :
  has_bytes (VDict m) = false
  <-> forall k v, m !! k = Some v -> has_bytes v = false.
Proof.
  cbn [has_bytes]. split.
  - intros Hm k v Hk. destruct (has_bytes v) eqn:Hv; [|done].
    rewrite <- Hm. symmetry. apply map_fold_any. eauto.
  - intros Hall.
    destruct (map_fold _ false m) eqn:Hm; [|done].
    apply map_fold_any in Hm as (k & v & Hk & Hv).
    by rewrite (Hall k v Hk) in Hv.
Qed.

Lemma has_bytes_insert (k : string) (v : value) (m : Doc) :
  has_bytes v = false -> has_bytes (VDict m) = false ->
  has_bytes (VDict (<[k := v]> m)) = false.
Proof.
  intros Hv Hm. apply has_bytes_dict. intros k' v' Hk'.
  apply lookup_insert_Some in Hk' as [[_ <-]|[_ Hk']]; [done|].
  by apply (proj1 (has_bytes_dict m) Hm k').
Qed.

Lemma has_bytes_of_optional (o : option string) :
  has_bytes (of_optional o) = false.
Proof. by destruct o. Qed.

Lemma has_bytes_file_meta (u : starlette.UploadFile) :
  has_bytes (file_meta u) = false.
Proof.
  unfold file_meta.
  repeat (apply has_bytes_insert; [by apply has_bytes_of_optional || done|]).
  done.
Qed.

Lemma has_bytes_files_meta (cv portfolio_file : option starlette.UploadFile) :
  has_bytes (VDict (collect_files_meta cv portfolio_file)) = false.
Proof.
  unfold collect_files_meta. cbn [fold_left].
  destruct cv, portfolio_file;
    repeat (apply has_bytes_insert; [apply has_bytes_file_meta|]); done.
Qed.

(** No [bytes] object is in the payload of a form submission. *)
Lemma has_bytes_form_document (form : Form) :
  has_bytes (VDict (form_document form)) = false.
Proof.
  assert (Hp : forall j n e p l f c k,
    has_bytes (VDict (form_payload j n e p l f c k)) = false).
  { intros. unfold form_payload.
    repeat (apply has_bytes_insert; [by apply has_bytes_of_optional || done|]).
    done. }
  unfold form_document. cbn zeta. destruct (truthy _); [|apply Hp].
  apply has_bytes_insert; [apply has_bytes_files_meta|apply Hp].
Qed.

Lemma form_document_files (form : Form) :
  form_document form !! "files"
  = match form_cv form, form_portfolio_file form with
    | None, None => None
    | cv, portfolio_file => Some (VDict (collect_files_meta cv portfolio_file))
    end.
Proof.
  unfold form_document, collect_files_meta, form_payload. cbn zeta.
  destruct (form_cv form), (form_portfolio_file form); cbn [fold_left truthy].
  1-3: rewrite bool_decide_eq_false_2 by apply insert_non_empty;
       cbn [negb]; by lookup_literal.
  rewrite bool_decide_eq_true_2 by done. cbn [negb]. by lookup_literal.
Qed.

(** A field of the form, as the payload has it. *)
Lemma form_document_field (form : Form) (k : string) :
  k <> "files" ->
  form_document form !! k
  = form_payload (form_job_id form) (form_name form) (form_email form)
      (form_phone form) (form_linkedin form) (form_portfolio form)
      (form_cover_letter form)
      (match form_consent form with Some b => Some b | None => Some false end)
    !! k.
Proof.
  intros Hk. unfold form_document. cbn zeta.
  destruct (truthy _); [|done]. by rewrite lookup_insert_ne.
Qed.

Lemma file_meta_recorded (doc files : Doc) (label : string)
    (u : starlette.UploadFile) :
  doc !! "files" = Some (VDict files) ->
  files !! label = Some (file_meta u) ->
  file_recorded doc label u.
Proof.
  intros Hfiles Hlabel. unfold file_meta in Hlabel.
  eexists files, _. split; [done|]. split; [done|].
  lookup_literal. do 3 (split; [done|]).
  rewrite !dom_insert_L, dom_empty_L. set_solver.
Qed.

(** C8.  A form submission that goes through (the store serving its
    calls, the job check skipped or passed) stores one document in which
    each attachment that is present is recorded under [files] with its
    filename, its declared content type and the number of its bytes, each
    attachment that is absent is not recorded, and no [bytes] object
    occurs at any depth. *)
Theorem apply_file_metadata (request : starlette.Request) (form : Form)
    (d : pymongo.Database) :
  serving d ->
  next_oid_fresh "application" d = true ->
  form_mode request (form_job_id form) = true ->
  ObjectId_is_valid (of_optional (form_job_id form)) = false
  \/ job_known d (of_optional (form_job_id form)) = true ->
  exists doc d',
    POST_careers_apply request form (Some d)
    = (starlette.Content 201 (serialize_doc (Some doc)), Some d')
    /\ pymongo.collection d' "application"
       = pymongo.collection d "application" ++ [doc]
    /\ (forall u, form_cv form = Some u -> file_recorded doc "cv" u)
    /\ (form_cv form = None -> file_absent doc "cv")
    /\ (forall u, form_portfolio_file form = Some u ->
          file_recorded doc "portfolio_file" u)
    /\ (form_portfolio_file form = None -> file_absent doc "portfolio_file")
    /\ has_bytes (VDict doc) = false.
Proof.
  intros Hs Hfresh Hmode Hgate.
  rewrite apply_form by done.
  destruct (submit_accepted _ (form_document form) d Hs Hfresh Hgate)
    as (d' & -> & Hdocs & _).
  eexists _, d'. split; [done|]. split; [done|].
  assert (Hfiles : stored (pymongo.next_oid d) (form_document form) !! "files"
                   = form_document form !! "files")
    by (unfold stored; by rewrite lookup_insert_ne).
  rewrite form_document_files in Hfiles. unfold collect_files_meta in Hfiles.
  cbn [fold_left] in Hfiles. unfold file_absent. rewrite Hfiles.
  repeat split.
  - intros u Hu. rewrite Hu in Hfiles.
    apply file_meta_recorded with (1 := Hfiles).
    destruct (form_portfolio_file form); by lookup_literal.
  - intros Hcv. rewrite Hcv.
    destruct (form_portfolio_file form); by lookup_literal.
  - intros u Hu. rewrite Hu in Hfiles.
    destruct (form_cv form);
      apply file_meta_recorded with (1 := Hfiles); by lookup_literal.
  - intros Hpf. rewrite Hpf.
    destruct (form_cv form); by lookup_literal.
  - apply has_bytes_insert; [done|apply has_bytes_form_document].
Qed.

(** *** The default of consent *)

Lemma validate_consent_default (m : Doc) (a : schemas.Application) :
  m !! "consent" = None ->
  schemas.validate V m = Some a ->
  schemas.consent a = true.
Proof.
  intros Hconsent. unfold schemas.validate.
  assert (Hd : forall validate,
    pydantic.defaulted m "consent" validate true = Some true)
    by (intros; unfold pydantic.defaulted; by rewrite Hconsent).
  rewrite Hd. intros Hvalid.
  repeat match type of Hvalid with
         | (?o ≫= _) = Some _ =>
             destruct o; cbn [mbind option_bind] in Hvalid; [|done]
         end.
  by injection Hvalid as <-.
Qed.

(** C9.  The store serving its calls and the job check skipped or
    passed: a JSON application whose body passes the schema and has no
    [consent] is stored with [consent] true, and a form application
    without the field [consent] is stored with [consent] false. *)
Theorem consent_defaults (d : pymongo.Database) :
  serving d ->
  next_oid_fresh "application" d = true ->
  (forall (request : starlette.Request) (form : Form) (m : Doc)
          (a : schemas.Application),
      form_mode request (form_job_id form) = false ->
      starlette.json request = Some (VDict m) ->
      m !! "consent" = None ->
      schemas.validate V m = Some a ->
      ObjectId_is_valid (VStr (schemas.job_id a)) = false
      \/ job_known d (VStr (schemas.job_id a)) = true ->
      exists doc d',
        POST_careers_apply request form (Some d)
        = (starlette.Content 201 (serialize_doc (Some doc)), Some d')
        /\ pymongo.collection d' "application"
           = pymongo.collection d "application" ++ [doc]
        /\ doc !! "consent" = Some (VBool true))
  /\ (forall (request : starlette.Request) (form : Form),
      form_mode request (form_job_id form) = true ->
      form_consent form = None ->
      ObjectId_is_valid (of_optional (form_job_id form)) = false
      \/ job_known d (of_optional (form_job_id form)) = true ->
      exists doc d',
        POST_careers_apply request form (Some d)
        = (starlette.Content 201 (serialize_doc (Some doc)), Some d')
        /\ pymongo.collection d' "application"
           = pymongo.collection d "application" ++ [doc]
        /\ doc !! "consent" = Some (VBool false)).
Proof.
  intros Hs Hfresh. split.
  - intros request form m a Hmode Hjson Hconsent Hvalid Hgate.
    rewrite (apply_json request form (Some d) m a) by done.
    destruct (submit_accepted _ (schemas.dict a) d Hs Hfresh Hgate)
      as (d' & -> & Hdocs & _).
    eexists _, d'. split; [done|]. split; [done|].
    unfold stored, schemas.dict. lookup_literal.
    by rewrite (validate_consent_default m a).
  - intros request form Hmode Hconsent Hgate.
    rewrite apply_form by done.
    destruct (submit_accepted _ (form_document form) d Hs Hfresh Hgate)
      as (d' & -> & Hdocs & _).
    eexists _, d'. split; [done|]. split; [done|].
    unfold stored. rewrite lookup_insert_ne by done.
    rewrite form_document_field by done.
    unfold form_payload. lookup_literal. by rewrite Hconsent.
Qed.

(** C10, amended.  In form mode, whatever the store does, a document
    added to the applications is the payload built from the form under an
    identifier, and this payload has the eight keys: each of the seven
    text fields with the submitted text, or null when the field was left
    out, and [consent] with the submitted boolean, or false when it was
    left out. *)
Theorem form_payload_keys (request : starlette.Request) (form : Form)
    (db : World) :
  form_mode request (form_job_id form) = true ->
  let payload := form_document form in
  (documents "application" (POST_careers_apply request form db).2
   = documents "application" db
   \/ exists oid,
        documents "application" (POST_careers_apply request form db).2
        = documents "application" db ++ [stored oid payload])
  /\ payload !! "job_id" = Some (from_option VStr VNone (form_job_id form))
  /\ payload !! "name" = Some (from_option VStr VNone (form_name form))
  /\ payload !! "email" = Some (from_option VStr VNone (form_email form))
  /\ payload !! "phone" = Some (from_option VStr VNone (form_phone form))
  /\ payload !! "linkedin" = Some (from_option VStr VNone (form_linkedin form))
  /\ payload !! "portfolio"
     = Some (from_option VStr VNone (form_portfolio form))
  /\ payload !! "cover_letter"
     = Some (from_option VStr VNone (form_cover_letter form))
  /\ payload !! "consent"
     = Some (VBool (from_option id false (form_consent form))).
Proof.
  intros Hmode payload. split.
  - rewrite apply_form by done.
    destruct (submit_outcomes (of_optional (form_job_id form)) payload db)
      as [(body & oid & _ & Hdocs & _)
         |[(st & dt & _ & Hdocs)|(e & oid & _ & Hdocs)]];
      eauto.
  - subst payload. rewrite !form_document_field by done.
    unfold form_payload. lookup_literal.
    do 7 (split; [reflexivity|]).
    by destruct (form_consent form) as [[]|].
Qed.

(** ** More properties of the handlers *)

(** *** serialize_doc, on any mapping *)

Lemma serialize_doc_Some (d : Doc) :
  serialize_doc (Some d) = Some (stringified <$> renamed d).
Proof.
  destruct (decide (d = ∅)) as [->|Hd]; [|by apply serialize_doc_nonempty].
  cbn. unfold renamed, dict_get. rewrite lookup_empty. cbn.
  by rewrite fmap_empty.
Qed.

(** X1.  Whatever it is given, [serialize_doc] returns no ObjectId at the
    top level of the mapping. *)
Theorem serialize_doc_no_top_level_ObjectId (doc : option Doc) (d' : Doc)
    (k : string) (v : value) :
  serialize_doc doc = Some d' ->
  d' !! k = Some v ->
  is_ObjectId v = false.
Proof.
  destruct doc as [d|]; [|done].
  rewrite serialize_doc_Some. intros [= <-]. rewrite lookup_fmap.
  destruct (renamed d !! k) as [x|]; [|done]. intros [= <-].
  apply stringified_not_ObjectId.
Qed.

(** X2.  The rename goes by the truth of [_id], not by its presence: a
    true [_id] of any type is removed and its text becomes [id], over an
    [id] that the document may have had; a false [_id] (0, the empty
    string, null) stays where it is and [id] is left to the loop. *)
Theorem serialize_doc_identifier (d : Doc) :
  exists d',
    serialize_doc (Some d) = Some d'
    /\ if truthy (dict_get d "_id")
       then d' !! "id" = Some (VStr (py_str (dict_get d "_id")))
            /\ d' !! "_id" = None
       else d' !! "_id" = d !! "_id"
            /\ d' !! "id" = stringified <$> d !! "id".
Proof.
  rewrite serialize_doc_Some. eexists. split; [done|].
  rewrite !lookup_fmap. unfold renamed.
  destruct (truthy (dict_get d "_id")) eqn:Hid.
  - by lookup_literal.
  - split; [|done]. unfold dict_get in Hid.
    destruct (d !! "_id") as [v|]; [|done]. cbn in *.
    by rewrite (truthy_stringified v Hid).
Qed.

(** X3.  Every other field goes through: under a key other than [_id]
    and [id] the result has what the document had, an ObjectId as its
    text and any other value unchanged; no such key is added or lost. *)
Theorem serialize_doc_other_fields (d : Doc) (k : string) :
  k <> "_id" -> k <> "id" ->
  exists d',
    serialize_doc (Some d) = Some d'
    /\ d' !! k
       = (fun v => match v with VOid o => VStr (bson.to_str o) | _ => v end)
           <$> d !! k.
Proof.
  intros Hk1 Hk2. rewrite serialize_doc_Some. eexists. split; [done|].
  rewrite lookup_fmap. unfold renamed.
  assert (Hk : (if truthy (dict_get d "_id")
                then <["id" := VStr (py_str (dict_get d "_id"))]>
                       (delete "_id" d)
                else d) !! k = d !! k).
  { destruct (truthy _); [|done].
    rewrite lookup_insert_ne by done. by rewrite lookup_delete_ne. }
  rewrite Hk. destruct (d !! k) as [v|]; [|done]. cbn. f_equal.
  by destruct v.
Qed.

(** *** What a handler leaves alone *)

Lemma all_collections_store_call {A}
    (op : pymongo.Database -> A * pymongo.Database) (db : World) :
  (forall d, pymongo.collections (op d).2 = pymongo.collections d) ->
  all_collections (store_call op db).2 = all_collections db.
Proof.
  intros Hop. destruct db as [d|]; [|done].
  rewrite store_call_Some. destruct (fails d); [done|]. cbn.
  by rewrite Hop.
Qed.

Lemma all_collections_find_one name oid (db : World) :
  all_collections (find_one name oid db).2 = all_collections db.
Proof. by apply all_collections_store_call. Qed.

Lemma documents_find_one name name' oid (db : World) :
  documents name' (find_one name oid db).2 = documents name' db.
Proof.
  destruct db as [d|]; [|done]. rewrite find_one_Some.
  by destruct (fails d).
Qed.

Lemma documents_validate_job_exists (jid : value) name (db : World) :
  documents name (validate_job_exists jid db).2 = documents name db.
Proof.
  unfold validate_job_exists.
  destruct (truthy jid && ObjectId_is_valid jid); [|done].
  unfold bind, ObjectId. destruct (ObjectId_new jid) as [oid|]; [|done].
  cbn [ret].
  pose proof (documents_find_one "job" name oid db) as Hfind.
  destruct (find_one "job" oid db) as [[found|e] db']; [|done].
  by destruct (negb _).
Qed.

Lemma documents_insert_and_fetch (payload : Doc) name (db : World) :
  name <> "application" ->
  documents name (insert_and_fetch payload db).2 = documents name db.
Proof.
  intros Hname. destruct db as [d|]; [|done].
  rewrite insert_and_fetch_Some. cbn zeta.
  destruct (fails d); [done|].
  destruct (negb _); cbn [snd documents from_option];
    [by rewrite collection_inserted_ne|].
  destruct (fails _); cbn [snd documents from_option];
    by rewrite collection_tick, collection_inserted_ne.
Qed.

Lemma documents_submit (jid : value) (payload : Doc) name (db : World) :
  name <> "application" ->
  documents name (submit jid payload db).2 = documents name db.
Proof.
  intros Hname. unfold submit, route, try_except_HTTPException, bind.
  pose proof (documents_validate_job_exists jid name db) as Hgate.
  destruct (validate_job_exists jid db) as [[[]|e] db1].
  - pose proof (documents_insert_and_fetch payload name db1 Hname) as Hins.
    destruct (insert_and_fetch payload db1) as [[body|[]] db2];
      cbn [snd] in *; congruence.
  - destruct e; cbn [snd] in *; congruence.
Qed.

(** X4.  [get_job] reads only: whatever the id and whatever the store
    does, every collection is after the call what it was before. *)
Theorem get_job_read_only (job_id : string) (db : World) :
  all_collections (GET_careers_jobs_id job_id db).2 = all_collections db.
Proof.
  unfold GET_careers_jobs_id, get_job, route, try_except_HTTPException.
  destruct (negb (ObjectId_is_valid (VStr job_id))); [done|].
  unfold bind, ObjectId.
  destruct (ObjectId_new (VStr job_id)) as [oid|]; [|done]. cbn [ret].
  pose proof (all_collections_find_one "job" oid db) as Hfind.
  destruct (find_one "job" oid db) as [[found|e] db']; [|by destruct e].
  by destruct (negb _).
Qed.

(** X5.  [apply] writes to the applications only: whatever the
    submission and whatever the store does, the documents of any other
    collection, the jobs among them, are after the call what they were
    before. *)
Theorem apply_writes_applications_only (request : starlette.Request)
    (form : Form) (db : World) (name : string) :
  name <> "application" ->
  documents name (POST_careers_apply request form db).2 = documents name db.
Proof.
  intros Hname.
  pose proof (apply_decoded request form db) as Happly.
  destruct (decoded request form) as [[jid payload]|].
  - rewrite Happly. by apply documents_submit.
  - by destruct Happly as [e ->].
Qed.

(** X6.  A valid id while the store is out of reach is answered 500, not
    404: with no database at all, and with a database that fails the
    lookup. *)
Theorem get_job_store_down (job_id : string) :
  ObjectId_is_valid (VStr job_id) = true ->
  GET_careers_jobs_id job_id None
  = (starlette.Error 500 (StrOf NoDatabase), None)
  /\ forall d,
       fails d = true ->
       GET_careers_jobs_id job_id (Some d)
       = (starlette.Error 500 (StrOf StoreError), Some (pymongo.tick d)).
Proof.
  intros Hv. unfold GET_careers_jobs_id, get_job, route,
    try_except_HTTPException. rewrite Hv. cbn [negb].
  destruct (ObjectId_is_valid_new _ Hv) as [oid Hoid].
  unfold bind, ObjectId. rewrite Hoid. cbn [ret]. split; [done|].
  intros d Hd. by rewrite find_one_Some, Hd.
Qed.

(** *** The modes of apply, again *)

(** X7.  A submission that carries the form field [job_id] is handled as
    a form, whatever its content type and its body: two requests with
    the same form fields are answered alike. *)
Theorem apply_job_id_field_selects_form (request request' : starlette.Request)
    (form : Form) (db : World) :
  is_Some (form_job_id form) ->
  POST_careers_apply request form db = POST_careers_apply request' form db.
Proof.
  intros Hjob.
  assert (Hmode : forall r, form_mode r (form_job_id form) = true).
  { intros r. unfold form_mode. rewrite bool_decide_eq_true_2 by done.
    apply orb_true_r. }
  by rewrite !apply_form.
Qed.

Lemma validate_rejects_url (m : Doc) (k s : string) :
  k = "linkedin" \/ k = "portfolio" ->
  m !! k = Some (VStr s) ->
  pydantic.HttpUrl_validator V (VStr s) = None ->
  schemas.validate V m = None.
Proof.
  intros Hk Hm Hs.
  assert (Hopt : pydantic.optional m k (pydantic.HttpUrl_validator V) = None)
    by (unfold pydantic.optional; by rewrite Hm, Hs).
  unfold schemas.validate.
  destruct Hk as [-> | ->]; rewrite Hopt;
    repeat match goal with
           | |- (?o ≫= _) = None =>
               destruct o; cbn [mbind option_bind]; [|done]
           end; done.
Qed.

Lemma stringified_of_optional (o : option string) :
  stringified (of_optional o) = of_optional o.
Proof. by destruct o. Qed.

(** Nothing of the payload of a form is touched by the loop of
    [serialize_doc]. *)
Lemma stringified_form_document (form : Form) :
  stringified <$> form_document form = form_document form.
Proof.
  unfold form_document, form_payload. cbn zeta.
  destruct (truthy _);
    rewrite !fmap_insert, fmap_empty, !stringified_of_optional; done.
Qed.

Lemma stringified_Application_dict (a : schemas.Application) :
  stringified <$> schemas.dict a = schemas.dict a.
Proof.
  unfold schemas.dict.
  by rewrite !fmap_insert, fmap_empty, !stringified_of_optional.
Qed.

(** A document that the store keeps, serialized: the payload with the
    text of the identifier under [id], when the payload has no [_id] and
    nothing for the loop to convert. *)
Lemma serialize_doc_stored (oid : bson.ObjectId) (payload : Doc) :
  payload !! "_id" = None ->
  stringified <$> payload = payload ->
  serialize_doc (Some (stored oid payload))
  = Some (<["id" := VStr (bson.to_str oid)]> payload).
Proof.
  intros Hid Hplain. rewrite serialize_doc_Some. f_equal.
  unfold renamed, stored, dict_get. rewrite lookup_insert_eq.
  cbn [default from_option id truthy py_str].
  rewrite delete_insert_id by done.
  by rewrite fmap_insert, Hplain.
Qed.

Lemma decoded_plain (request : starlette.Request) (form : Form)
    (jid : value) (payload : Doc) :
  decoded request form = Some (jid, payload) ->
  payload !! "_id" = None /\ stringified <$> payload = payload.
Proof.
  unfold decoded. destruct (form_mode _ _).
  - intros [= _ <-]. split; [|apply stringified_form_document].
    rewrite form_document_field by done. unfold form_payload.
    by lookup_literal.
  - destruct (starlette.json request) as [[| | | | | | |m]|]; try done.
    destruct (schemas.validate V m) as [a|]; [|done].
    intros [= _ <-]. split; [|apply stringified_Application_dict].
    unfold schemas.dict. by lookup_literal.
Qed.

(** X8.  The body of the 201 of [apply], in both modes, is the payload
    that was inserted, with the text of the new identifier under [id]
    and without [_id]: nothing else is added, dropped or changed on the
    way back. *)
Theorem apply_response_body (request : starlette.Request) (form : Form)
    (d : pymongo.Database) (jid : value) (payload : Doc) :
  serving d ->
  next_oid_fresh "application" d = true ->
  decoded request form = Some (jid, payload) ->
  ObjectId_is_valid jid = false \/ job_known d jid = true ->
  exists body,
    (POST_careers_apply request form (Some d)).1
    = starlette.Content 201 (Some body)
    /\ body = <["id" := VStr (bson.to_str (pymongo.next_oid d))]> payload
    /\ body !! "_id" = None
    /\ dom body = dom payload ∪ {["id"]}.
Proof.
  intros Hs Hfresh Hdec Hgate.
  pose proof (apply_decoded request form (Some d)) as Happly.
  rewrite Hdec in Happly. rewrite Happly.
  destruct (submit_accepted jid payload d Hs Hfresh Hgate) as (d' & -> & _).
  destruct (decoded_plain _ _ _ _ Hdec) as [Hid Hplain].
  rewrite serialize_doc_stored by done.
  eexists. split; [done|]. split; [done|].
  split; [by rewrite lookup_insert_ne|].
  by rewrite dom_insert_L, (comm_L (∪)).
Qed.

Lemma dom_Application_dict (a : schemas.Application) :
  dom (schemas.dict a) = Application_keys.
Proof.
  unfold schemas.dict, Application_keys.
  rewrite !dom_insert_L, dom_empty_L. set_solver-.
Qed.

(** X9.  A JSON application is stored with the eight fields of the
    schema and its new [_id], and nothing else: whatever else the body
    held (an [_id], [files], any field that the schema does not declare)
    is not stored. *)
Theorem apply_json_stores_declared_fields (request : starlette.Request)
    (form : Form) (d : pymongo.Database) (m : Doc)
    (a : schemas.Application) :
  serving d ->
  next_oid_fresh "application" d = true ->
  form_mode request (form_job_id form) = false ->
  starlette.json request = Some (VDict m) ->
  schemas.validate V m = Some a ->
  ObjectId_is_valid (VStr (schemas.job_id a)) = false
  \/ job_known d (VStr (schemas.job_id a)) = true ->
  exists doc d',
    (POST_careers_apply request form (Some d)).2 = Some d'
    /\ pymongo.collection d' "application"
       = pymongo.collection d "application" ++ [doc]
    /\ doc !! "_id" = Some (VOid (pymongo.next_oid d))
    /\ dom doc = Application_keys ∪ {["_id"]}.
Proof.
  intros Hs Hfresh Hmode Hjson Hvalid Hgate.
  rewrite (apply_json request form (Some d) m a) by done.
  destruct (submit_accepted _ (schemas.dict a) d Hs Hfresh Hgate)
    as (d' & -> & Hdocs & _).
  eexists _, d'. split; [done|]. split; [done|].
  unfold stored. split; [by rewrite lookup_insert_eq|].
  by rewrite dom_insert_L, dom_Application_dict, (comm_L (∪)).
Qed.

(** X10.  The two modes differ on the URL fields too: a text that the
    validator of [HttpUrl] rejects makes a JSON application fail on the
    schema (500, the store untouched), under [linkedin] as under
    [portfolio]; the same text in the form field [linkedin] is stored as
    it is. *)
Theorem apply_url_asymmetry (s : string) :
  pydantic.HttpUrl_validator V (VStr s) = None ->
  (forall (request : starlette.Request) (form : Form) (m : Doc) (k : string)
          (db : World),
      form_mode request (form_job_id form) = false ->
      starlette.json request = Some (VDict m) ->
      k = "linkedin" \/ k = "portfolio" ->
      m !! k = Some (VStr s) ->
      POST_careers_apply request form db
      = (starlette.Error 500 (StrOf ValidationError), db))
  /\ (forall (request : starlette.Request) (form : Form)
             (d : pymongo.Database),
      serving d ->
      next_oid_fresh "application" d = true ->
      form_mode request (form_job_id form) = true ->
      form_linkedin form = Some s ->
      ObjectId_is_valid (of_optional (form_job_id form)) = false
      \/ job_known d (of_optional (form_job_id form)) = true ->
      exists doc d',
        POST_careers_apply request form (Some d)
        = (starlette.Content 201 (serialize_doc (Some doc)), Some d')
        /\ pymongo.collection d' "application"
           = pymongo.collection d "application" ++ [doc]
        /\ doc !! "linkedin" = Some (VStr s)).
Proof.
  intros Hs. split.
  - intros request form m k db Hmode Hjson Hk Hm.
    unfold form_mode in Hmode.
    unfold POST_careers_apply, apply, route, try_except_HTTPException.
    rewrite Hmode. unfold request_json, Application, bind. rewrite Hjson.
    cbn [ret]. by rewrite (validate_rejects_url m k s).
  - intros request form d Hserving Hfresh Hmode Hlinkedin Hgate.
    rewrite apply_form by done.
    destruct (submit_accepted _ (form_document form) d Hserving Hfresh Hgate)
      as (d' & -> & Hdocs & _).
    eexists _, d'. split; [done|]. split; [done|].
    unfold stored. rewrite lookup_insert_ne by done.
    rewrite form_document_field by done.
    unfold form_payload. lookup_literal. by rewrite Hlinkedin.
Qed.

(** *** seed_jobs, whatever the store holds and does *)

(** X12.  Whatever the store does, the seed operation writes to the jobs
    only, keeps the jobs that were there, adds three documents at most,
    and adds none when there was a job already. *)
Theorem seed_writes_jobs_only (db : World) :
  (forall name, name <> "job" ->
     documents name (POST_careers_seed db).2 = documents name db)
  /\ exists new,
       documents "job" (POST_careers_seed db).2 = documents "job" db ++ new
       /\ (List.length new <= 3)%nat
       /\ (documents "job" db <> [] -> new = []).
Proof.
  rewrite POST_careers_seed_raises. cbn [snd].
  split; [done|]. exists []. rewrite app_nil_r.
  split; [done|]. split; [cbn; lia|done].
Qed.

(** *** A job, from its insertion to its lookup *)

Lemma ObjectId_is_valid_to_str (n : N) :
  (n < bson.bound)%N -> ObjectId_is_valid (VStr (bson.to_str n)) = true.
Proof.
  intros Hn. unfold ObjectId_is_valid. cbn [ObjectId_new].
  rewrite of_str_generated by done. apply andb_true_iff. split.
  - pose proof (len_to_str (bson.generated n)) as Hlen.
    rewrite length_generated in Hlen.
    cbn [truthy]. by destruct (bson.to_str n).
  - apply bool_decide_eq_true_2. by eexists.
Qed.

(** The job that an identifier of the store names is what [get_job]
    answers. *)
Lemma get_job_found (d : pymongo.Database) (oid : N) (doc : Doc) :
  serving d ->
  (oid < bson.bound)%N ->
  pymongo.lookup_id oid (pymongo.collection d "job") = Some doc ->
  GET_careers_jobs_id (bson.to_str oid) (Some d)
  = (starlette.Content 200 (serialize_doc (Some doc)), Some (pymongo.tick d)).
Proof.
  intros Hs Hoid Hdoc.
  unfold GET_careers_jobs_id, get_job, route, try_except_HTTPException.
  rewrite ObjectId_is_valid_to_str by done. cbn [negb]. unfold bind.
  rewrite ObjectId_to_str. rewrite (proj2 (N.ltb_lt _ _) Hoid).
  rewrite find_one_Some, (serving_not_fails _ Hs), Hdoc.
  cbn [from_option]. by rewrite (lookup_id_truthy _ _ _ Hdoc).
Qed.

Lemma stringified_Job_dict (job : schemas_Job.Job) :
  stringified <$> schemas_Job.dict job = schemas_Job.dict job.
Proof.
  unfold schemas_Job.dict.
  by rewrite !fmap_insert, fmap_empty, stringified_of_optional.
Qed.

(** X15.  A job that [create_job] has stored is what [get_job] returns
    for the identifier of the response: both answer the fields of the job
    with the text of the new identifier under [id], and the job is the
    last of the collection. *)
Theorem create_job_then_get_job (job : schemas_Job.Job)
    (d : pymongo.Database) :
  serving d ->
  next_oid_fresh "job" d = true ->
  exists body d1,
    body = <["id" := VStr (bson.to_str (pymongo.next_oid d))]>
             (schemas_Job.dict job)
    /\ POST_careers_jobs job (Some d)
       = (starlette.Content 201 (Some body), Some d1)
    /\ pymongo.collection d1 "job"
       = pymongo.collection d "job"
         ++ [stored (pymongo.next_oid d) (schemas_Job.dict job)]
    /\ GET_careers_jobs_id (bson.to_str (pymongo.next_oid d)) (Some d1)
       = (starlette.Content 200 (Some body), Some (pymongo.tick d1)).
Proof.
  intros Hs Hfresh.
  set (payload := schemas_Job.dict job).
  set (d1 := pymongo.tick (inserted "job" payload d)).
  assert (Hser : serialize_doc (Some (stored (pymongo.next_oid d) payload))
                 = Some (<["id" := VStr (bson.to_str (pymongo.next_oid d))]>
                           payload)).
  { apply serialize_doc_stored; [done|apply stringified_Job_dict]. }
  pose proof (next_oid_fresh_bound _ _ Hfresh) as Hlt.
  eexists _, d1. split; [done|]. split; [|split].
  - unfold POST_careers_jobs, create_job, route, try_except_Exception, bind.
    rewrite create_document_Some, (serving_not_fails _ Hs).
    rewrite ObjectId_to_str, Hlt, find_one_Some.
    rewrite serving_not_fails by done.
    fold payload. rewrite (lookup_id_inserted "job" payload d) by done.
    cbn [ret]. by rewrite Hser.
  - unfold d1. by rewrite collection_tick, collection_inserted.
  - rewrite (get_job_found d1 _ (stored (pymongo.next_oid d) payload));
      [by rewrite Hser|done|by apply N.ltb_lt|].
    unfold d1. rewrite collection_tick, collection_inserted.
    by apply lookup_id_appended.
Qed.

Lemma create_job_serving (job : schemas_Job.Job) (d : pymongo.Database) :
  serving d ->
  next_oid_fresh "job" d = true ->
  POST_careers_jobs job (Some d)
  = (starlette.Content 201
       (serialize_doc
          (Some (stored (pymongo.next_oid d) (schemas_Job.dict job)))),
     Some (pymongo.tick (inserted "job" (schemas_Job.dict job) d))).
Proof.
  intros Hs Hfresh.
  unfold POST_careers_jobs, create_job, route, try_except_Exception, bind.
  rewrite create_document_Some, (serving_not_fails _ Hs).
  rewrite ObjectId_to_str, (next_oid_fresh_bound _ _ Hfresh), find_one_Some.
  rewrite serving_not_fails by done.
  by rewrite (lookup_id_inserted "job" (schemas_Job.dict job) d).
Qed.

Lemma list_jobs_serving (d : pymongo.Database) :
  serving d ->
  GET_careers_jobs (Some d)
  = (starlette.Content 200
       ((fun doc => serialize_doc (Some doc)) <$> pymongo.collection d "job"),
     Some (pymongo.tick d)).
Proof.
  intros Hs.
  unfold GET_careers_jobs, list_jobs, route, try_except_Exception, bind,
    get_documents.
  by rewrite store_call_Some, (serving_not_fails _ Hs).
Qed.

(** X16.  A created job shows up in the listing, last and as [create_job]
    answered it, after the entries that the listing had before, which
    are one per job of the collection. *)
Theorem create_job_then_list_jobs (job : schemas_Job.Job)
    (d : pymongo.Database) :
  serving d ->
  next_oid_fresh "job" d = true ->
  exists body d1 listed,
    POST_careers_jobs job (Some d) = (starlette.Content 201 body, Some d1)
    /\ (GET_careers_jobs (Some d)).1 = starlette.Content 200 listed
    /\ List.length listed = List.length (pymongo.collection d "job")
    /\ (GET_careers_jobs (Some d1)).1 = starlette.Content 200 (listed ++ [body]).
Proof.
  intros Hs Hfresh. rewrite create_job_serving by done.
  eexists _, _, _. split; [done|].
  rewrite !list_jobs_serving by done. split; [done|].
  split; [by rewrite length_fmap|]. cbn [fst].
  rewrite collection_tick, collection_inserted. by rewrite fmap_app.
Qed.

(** *** The schemas *)

Lemma required_Some {A} (data : Doc) (k : string)
    (validate : value -> option A) (x : A) :
  pydantic.required data k validate = Some x -> is_Some (data !! k).
Proof. unfold pydantic.required. by destruct (data !! k). Qed.

Lemma defaulted_missing {A} (data : Doc) (k : string)
    (validate : value -> option A) (dflt x : A) :
  pydantic.defaulted data k validate dflt = Some x ->
  data !! k = None -> x = dflt.
Proof. unfold pydantic.defaulted. intros Hx Hk. rewrite Hk in Hx. congruence. Qed.

Lemma optional_missing {A} (data : Doc) (k : string)
    (validate : value -> option A) (x : option A) :
  pydantic.optional data k validate = Some x ->
  data !! k = None -> x = None.
Proof. unfold pydantic.optional. intros Hx Hk. rewrite Hk in Hx. congruence. Qed.

Lemma dom_Job_dict (job : schemas_Job.Job) :
  dom (schemas_Job.dict job) = Job_keys.
Proof.
  unfold schemas_Job.dict, Job_keys.
  rewrite !dom_insert_L, dom_empty_L. set_solver-.
Qed.

(** X17.  A body that passes the [Job] schema has the five required
    texts; what it leaves out of the other four fields is filled with the
    declared default (no responsibilities, no requirements, no salary
    range, not remote); and the model has the nine fields of the schema
    whatever else the body held. *)
Theorem Job_required_and_defaults (data : Doc) (job : schemas_Job.Job) :
  schemas_Job.validate V data = Some job ->
  (forall k, k ∈ ["title"; "department"; "location"; "employment_type";
                   "description"] -> is_Some (data !! k))
  /\ (data !! "responsibilities" = None -> schemas_Job.responsibilities job = [])
  /\ (data !! "requirements" = None -> schemas_Job.requirements job = [])
  /\ (data !! "salary_range" = None -> schemas_Job.salary_range job = None)
  /\ (data !! "remote" = None -> schemas_Job.remote job = false)
  /\ dom (schemas_Job.dict job) = Job_keys.
Proof.
  unfold schemas_Job.validate. intros Hvalid.
  repeat match type of Hvalid with
         | (_ ≫= _) = Some _ =>
             let H := fresh "Hfield" in
             apply bind_Some in Hvalid as (? & H & Hvalid)
         end.
  injection Hvalid as <-. cbn.
  split; [|split; [|split; [|split; [|split]]]];
    eauto using defaulted_missing, optional_missing, dom_Job_dict.
  intros k Hk. rewrite !elem_of_cons in Hk.
  destruct Hk as [->|[->|[->|[->|[->|Hk]]]]];
    eauto using required_Some.
  by apply elem_of_nil in Hk.
Qed.

(** X18.  A body that passes the [User] schema has an [age] that is
    absent or between 0 and 120, and an integer outside these bounds
    under [age] makes the body fail. *)
Theorem User_age_bounds (int_validator : value -> option Z) (data : Doc) :
  (forall u n,
      schemas_User.validate V int_validator data = Some u ->
      schemas_User.age u = Some n -> (0 <= n <= 120)%Z)
  /\ (forall v n,
      data !! "age" = Some v -> v <> VNone ->
      int_validator v = Some n -> (n < 0 \/ 120 < n)%Z ->
      schemas_User.validate V int_validator data = None).
Proof.
  split.
  - intros u n Hvalid Hage. unfold schemas_User.validate in Hvalid.
    repeat match type of Hvalid with
           | (_ ≫= _) = Some _ =>
               let H := fresh "Hfield" in
               apply bind_Some in Hvalid as (? & H & Hvalid)
           end.
    injection Hvalid as <-. cbn in Hage. subst.
    unfold pydantic.optional in Hfield2.
    destruct (data !! "age") as [v|]; [|done].
    assert (Hb : constraints.bounded int_validator 0 120 v = Some n).
    { destruct v; try discriminate Hfield2;
        destruct (constraints.bounded int_validator 0 120 _) as [bounded|];
        cbn in Hfield2; congruence. }
    unfold constraints.bounded in Hb.
    destruct (int_validator v) as [z|]; [|done].
    destruct ((0 <=? z) && (z <=? 120))%Z eqn:Hz; [|done].
    injection Hb as ->. lia.
  - intros v n Hage Hv Hint Hout.
    assert (Hopt : pydantic.optional data "age"
                     (constraints.bounded int_validator 0 120) = None).
    { unfold pydantic.optional, constraints.bounded. rewrite Hage, Hint.
      assert (((0 <=? n) && (n <=? 120))%Z = false) as -> by lia.
      by destruct v. }
    unfold schemas_User.validate. rewrite Hopt.
    repeat match goal with
           | |- (?o ≫= _) = None =>
               destruct o; cbn [mbind option_bind]; [|done]
           end; done.
Qed.

(** *** test_database *)

Lemma list_collection_names_Some (d : pymongo.Database) :
  list_collection_names (Some d)
  = if fails d
    then (Raise (Raised StoreError), Some (pymongo.tick d))
    else (Return (map_to_list (pymongo.collections d)).*1,
          Some (pymongo.tick d)).
Proof. unfold list_collection_names. by rewrite store_call_Some. Qed.

(** [s[:n]] is the first [n] characters of [s], or all of [s] when it
    has fewer: it is [s] up to the start of a character. *)
Lemma str_prefix_spec (s : string) : forall n : nat,
  exists rest,
    s = String.append (str_prefix n s) rest
    /\ len (str_prefix n s) = Nat.min n (len s)
    /\ match rest with
       | String c _ => is_continuation c = false
       | EmptyString => True
       end.
Proof.
  induction s as [|c s IH]; intros n.
  - exists "". by rewrite Nat.min_0_r.
  - cbn [str_prefix len]. destruct (is_continuation c) eqn:Hc.
    + destruct (IH n) as (rest & Hs & Hlen & Hrest).
      exists rest. cbn [len]. rewrite Hc.
      split; [by rewrite Hs at 1|done].
    + destruct n as [|n].
      * exists (String c s). done.
      * destruct (IH n) as (rest & Hs & Hlen & Hrest).
        exists rest. cbn [len]. rewrite Hc, Hlen.
        split; [by rewrite Hs at 1|done].
Qed.

(** X19.  The diagnostic route never fails and never writes: whatever
    the environment and whatever the store does, it answers 200 with
    [backend] running; [connection_status] tells whether there is a
    database handle, even when the store behind it cannot be reached; and
    [collections] lists ten names at most, all of them collections of the
    store. *)
Theorem test_database_never_fails (environ : gmap string string) (db : World) :
  exists response db',
    GET_test environ db = (starlette.Content 200 response, db')
    /\ all_collections db' = all_collections db
    /\ response !! "backend" = Some (VStr "✅ Running")
    /\ response !! "connection_status"
       = Some (VStr (if db is Some _ then "Connected" else "Not Connected"))
    /\ exists names,
         response !! "collections" = Some (VList (VStr <$> names))
         /\ (List.length names <= 10)%nat
         /\ forall name, name ∈ names -> is_Some (all_collections db !! name).
Proof.
  unfold GET_test, test_database, route, bind, try_except.
  destruct db as [d|].
  - rewrite list_collection_names_Some. destruct (fails d).
    + eexists _, _. split; [done|]. split; [done|].
      lookup_literal. split; [done|]. split; [done|].
      exists []. split; [done|]. split; [cbn; lia|].
      by intros name Hname%elem_of_nil.
    + eexists _, _. split; [done|]. split; [done|].
      lookup_literal. split; [done|]. split; [done|].
      eexists. split; [done|]. split.
      * rewrite length_take. lia.
      * intros name Hname%subseteq_take.
        apply list_elem_of_fmap in Hname as ([k docs] & -> & Hin).
        apply elem_of_map_to_list in Hin. cbn. by eexists.
  - eexists _, _. split; [done|]. split; [done|].
    lookup_literal. split; [done|]. split; [done|].
    exists []. split; [done|]. split; [cbn; lia|].
    by intros name Hname%elem_of_nil.
Qed.

(** X20.  What the diagnostic route says of the configuration comes from
    the environment alone: [database_url] and [database_name] are "Set"
    when the variable is there and not empty, "Not Set" otherwise, with
    or without a database handle. *)
Theorem test_database_reports_environment (environ : gmap string string)
    (db : World) :
  exists response,
    (GET_test environ db).1 = starlette.Content 200 response
    /\ response !! "database_url"
       = Some (VStr match environ !! "DATABASE_URL" with
                    | Some (String _ _) => "✅ Set"
                    | _ => "❌ Not Set"
                    end)
    /\ response !! "database_name"
       = Some (VStr match environ !! "DATABASE_NAME" with
                    | Some (String _ _) => "✅ Set"
                    | _ => "❌ Not Set"
                    end).
Proof.
  assert (Hflag : forall name,
    env_flag environ name
    = VStr match environ !! name with
           | Some (String _ _) => "✅ Set"
           | _ => "❌ Not Set"
           end).
  { intros name. unfold env_flag. by destruct (environ !! name) as [[|c s]|]. }
  unfold GET_test, test_database, route, bind, try_except.
  destruct db as [d|].
  - rewrite list_collection_names_Some.
    destruct (fails d); eexists; (split; [done|]);
      lookup_literal; by rewrite !Hflag.
  - eexists. split; [done|]. lookup_literal. by rewrite !Hflag.
Qed.

(** X21.  When the store fails the listing of its collections, the
    diagnostic route reports, after a fixed heading, the first 50
    characters of the message of the exception and no more: the whole
    message when it has 50 characters at most.  What is reported is the
    message up to the start of a character, and has 50 characters or as
    many as the message has. *)
Theorem test_database_truncates_error (environ : gmap string string)
    (d : pymongo.Database) :
  fails d = true ->
  exists response reported rest,
    (GET_test environ (Some d)).1 = starlette.Content 200 response
    /\ response !! "database"
       = Some (VStr (String.append "⚠️  Connected but Error: " reported))
    /\ str_of_exception (Raised StoreError) = String.append reported rest
    /\ len reported = Nat.min 50 (len (str_of_exception (Raised StoreError)))
    /\ match rest with
       | String c _ => is_continuation c = false
       | EmptyString => True
       end.
Proof.
  intros Hd.
  unfold GET_test, test_database, route, bind, try_except.
  rewrite list_collection_names_Some, Hd.
  destruct (str_prefix_spec (str_of_exception (Raised StoreError)) 50)
    as (rest & Hs & Hlen & Hrest).
  eexists _, _, rest. split; [done|]. lookup_literal. done.
Qed.

(** *** What no request does to the store *)

Lemma evolves_trans (d1 d2 d3 : pymongo.Database) :
  evolves d1 d2 -> evolves d2 d3 -> evolves d1 d3.
Proof.
  intros H12 H23. induction H23; [done| |]; by constructor.
Qed.

Lemma World_evolves_refl (db : World) : World_evolves db db.
Proof. destruct db; [constructor|done]. Qed.

Lemma World_evolves_trans (db1 db2 db3 : World) :
  World_evolves db1 db2 -> World_evolves db2 db3 -> World_evolves db1 db3.
Proof.
  destruct db1, db2, db3; cbn; try done. apply evolves_trans.
Qed.

Lemma appends_only_ret {A} (a : A) : appends_only (ret a).
Proof. intros db. apply World_evolves_refl. Qed.

Lemma appends_only_raise {A} (e : exn) : appends_only (@raise A e).
Proof. intros db. apply World_evolves_refl. Qed.

Lemma appends_only_bind {A B} (m : M A) (k : A -> M B) :
  appends_only m -> (forall a, appends_only (k a)) -> appends_only (bind m k).
Proof.
  intros Hm Hk db. unfold bind. specialize (Hm db).
  destruct (m db) as [[a|e] db']; [|done].
  by apply World_evolves_trans with db', Hk.
Qed.

Lemma appends_only_try_except {A} (body : M A) (handler : exn -> M A) :
  appends_only body -> (forall e, appends_only (handler e)) ->
  appends_only (try_except body handler).
Proof.
  intros Hbody Hhandler db. unfold try_except. specialize (Hbody db).
  destruct (body db) as [[a|e] db']; [done|].
  by apply World_evolves_trans with db', Hhandler.
Qed.

Lemma appends_only_try_except_HTTPException {A} (body : M A) :
  appends_only body -> appends_only (try_except_HTTPException body).
Proof.
  intros Hbody db. unfold try_except_HTTPException. specialize (Hbody db).
  by destruct (body db) as [[a|[]] db'].
Qed.

Lemma appends_only_try_except_Exception {A} (body : M A) :
  appends_only body -> appends_only (try_except_Exception body).
Proof.
  intros Hbody db. unfold try_except_Exception. specialize (Hbody db).
  by destruct (body db) as [[a|[]] db'].
Qed.

Lemma appends_only_store_call {A}
    (op : pymongo.Database -> A * pymongo.Database) :
  (forall d, evolves d (op (pymongo.tick d)).2) ->
  appends_only (store_call op).
Proof.
  intros Hop [d|]; [|done]. rewrite store_call_Some.
  destruct (fails d); [|apply Hop]. by do 2 constructor.
Qed.

Lemma appends_only_find_one name oid : appends_only (find_one name oid).
Proof. apply appends_only_store_call. intros d. by do 2 constructor. Qed.

Lemma appends_only_create_document name data :
  appends_only (create_document name data).
Proof.
  apply appends_only_bind; [|intros; apply appends_only_ret].
  apply appends_only_store_call. intros d.
  apply (evolves_inserted d name data d). constructor.
Qed.

Lemma appends_only_ObjectId (v : value) : appends_only (ObjectId v).
Proof.
  unfold ObjectId.
  destruct (ObjectId_new v); [apply appends_only_ret|apply appends_only_raise].
Qed.

Lemma appends_only_for_each {A B} (xs : list A) (body : B -> A -> M B) :
  (forall acc x, appends_only (body acc x)) ->
  forall acc, appends_only (for_each xs acc body).
Proof.
  intros Hbody. induction xs as [|x xs IH]; intros acc; cbn [for_each].
  - apply appends_only_ret.
  - by apply appends_only_bind.
Qed.

(** The steps of a handler, taken apart. *)
Ltac appends_only_steps :=
  repeat first
    [ apply appends_only_ret
    | apply appends_only_raise
    | apply appends_only_find_one
    | apply appends_only_create_document
    | apply appends_only_ObjectId
    | apply appends_only_try_except_HTTPException
    | apply appends_only_try_except_Exception
    | apply appends_only_try_except; [|intros ?]
    | apply appends_only_for_each; intros ? ?
    | apply appends_only_bind; [|intros ?]
    | match goal with
      | |- appends_only (if ?b then _ else _) => destruct b
      | |- appends_only (match ?x with _ => _ end) => destruct x
      end ].

Lemma appends_only_route {A} (status_code : Z) (handler : M A) (db : World) :
  appends_only handler -> World_evolves db (route status_code handler db).2.
Proof.
  intros Hh. unfold route. specialize (Hh db).
  by destruct (handler db) as [[a|[]] db'].
Qed.

Lemma appends_only_get_job job_id : appends_only (get_job job_id).
Proof. unfold get_job. appends_only_steps. Qed.

Lemma appends_only_apply request j n e p l f c k cv pf :
  appends_only (apply request j n e p l f c k cv pf).
Proof.
  unfold apply, validate_job_exists, request_json, Application.
  appends_only_steps.
Qed.

Lemma appends_only_seed_jobs : appends_only seed_jobs.
Proof.
  unfold seed_jobs, count_jobs_if_db. appends_only_steps.
  - intros [d|]; [apply World_evolves_refl|done].
  - apply appends_only_store_call. intros d0. by do 2 constructor.
Qed.

Lemma appends_only_create_job job : appends_only (create_job job).
Proof. unfold create_job. appends_only_steps. Qed.

Lemma appends_only_list_jobs : appends_only list_jobs.
Proof.
  unfold list_jobs, get_documents. appends_only_steps.
  apply appends_only_store_call. intros d. by do 2 constructor.
Qed.

Lemma appends_only_test_database environ :
  appends_only (test_database environ).
Proof.
  unfold test_database, list_collection_names. appends_only_steps.
  - intros [d|]; [|apply World_evolves_refl].
    unfold try_except, bind.
    rewrite store_call_Some. destruct (fails d); by do 2 constructor.
Qed.

Lemma World_evolves_after (c : Call) (db : World) :
  World_evolves db (after c db).
Proof.
  destruct c; cbn [after]; apply appends_only_route;
    auto using appends_only_get_job, appends_only_apply,
      appends_only_seed_jobs, appends_only_create_job,
      appends_only_list_jobs, appends_only_test_database.
Qed.

Lemma World_evolves_after_all (cs : list Call) :
  forall db, World_evolves db (after_all cs db).
Proof.
  unfold after_all. induction cs as [|c cs IH]; intros db; cbn [fold_left].
  - apply World_evolves_refl.
  - apply World_evolves_trans with (after c db);
      [apply World_evolves_after|apply IH].
Qed.

Lemma evolves_prefix (d d' : pymongo.Database) name :
  evolves d d' ->
  pymongo.collection d name `prefix_of` pymongo.collection d' name.
Proof.
  induction 1 as [|d' _ IH|name' payload d' _ IH]; [done|done|].
  destruct (decide (name' = name)) as [->|Hne].
  - rewrite collection_inserted.
    destruct IH as [k ->]. exists (k ++ [stored (pymongo.next_oid d') payload]).
    by rewrite app_assoc.
  - by rewrite collection_inserted_ne.
Qed.

(** X22.  No sequence of requests removes, changes or reorders a stored
    document: in every collection the documents that were there are the
    first documents afterwards, whatever the store serves or fails; and a
    process without a database stays without one. *)
Theorem requests_append_only (cs : list Call) (db : World) (name : string) :
  documents name db `prefix_of` documents name (after_all cs db)
  /\ (db = None -> after_all cs db = None).
Proof.
  pose proof (World_evolves_after_all cs db) as Hev.
  destruct db as [d|], (after_all cs _) as [d'|]; try done.
  split; [|done]. by apply evolves_prefix.
Qed.

Lemma doc_oid_stored oid payload : doc_oid (stored oid payload) = Some oid.
Proof. unfold doc_oid, stored. by rewrite lookup_insert_eq. Qed.

Lemma has_id_doc_oid (oid o : bson.ObjectId) (doc : Doc) :
  doc_oid doc = Some o -> pymongo.has_id oid doc = bson.eqb o oid.
Proof.
  unfold doc_oid, pymongo.has_id.
  destruct (doc !! "_id") as [[]|]; congruence.
Qed.

Lemma identified_inserted name payload (d : pymongo.Database) :
  identified d -> identified (inserted name payload d).
Proof.
  intros Hd name'.
  change (pymongo.next_oid (inserted name payload d))
    with (pymongo.next_oid d + 1)%N.
  destruct (Hd name') as [Hbelow Hdistinct].
  assert (Hweak : Forall (fun doc => exists n : N,
                     doc_oid doc = Some (bson.generated n)
                     /\ (n < pymongo.next_oid d + 1)%N)
                    (pymongo.collection d name')).
  { eapply Forall_impl; [exact Hbelow|].
    intros doc (n & Hn & Hlt). exists n. split; [done|lia]. }
  destruct (decide (name = name')) as [<-|Hne].
  - rewrite collection_inserted. split.
    + apply Forall_app. split; [done|].
      apply Forall_singleton. exists (pymongo.next_oid d).
      split; [apply doc_oid_stored|lia].
    + rewrite omap_app. cbn [omap list_omap]. rewrite doc_oid_stored.
      apply NoDup_app. split; [done|]. split; [|apply NoDup_singleton].
      intros oid Hin Hnew. apply list_elem_of_singleton in Hnew as ->.
      apply list_elem_of_omap in Hin as (doc & Hdoc & Hoid).
      rewrite Forall_forall in Hbelow.
      destruct (Hbelow doc Hdoc) as (n & Hn & Hlt).
      rewrite Hoid in Hn. injection Hn as Hn%generated_inj. lia.
  - by rewrite collection_inserted_ne.
Qed.

Lemma evolves_identified (d d' : pymongo.Database) :
  evolves d d' -> identified d -> identified d'.
Proof.
  induction 1 as [|d' _ IH|name payload d' _ IH]; intros Hd; [done| |].
  - exact (IH Hd).
  - apply identified_inserted. exact (IH Hd).
Qed.

Lemma identified_fresh (d : pymongo.Database) name :
  identified d ->
  (pymongo.next_oid d < bson.bound)%N ->
  next_oid_fresh name d = true.
Proof.
  intros Hd Hlt. unfold next_oid_fresh.
  apply andb_true_iff. split; [by apply N.ltb_lt|].
  apply forallb_forall. intros doc Hdoc%list_elem_of_In.
  destruct (Hd name) as [Hbelow _]. rewrite Forall_forall in Hbelow.
  destruct (Hbelow doc Hdoc) as (n & Hn & Hn_lt).
  rewrite (has_id_doc_oid _ n) by done.
  apply negb_true_iff. destruct (bson.eqb n (pymongo.next_oid d)) eqn:Heq; [|done].
  apply eqb_eq, generated_inj in Heq. lia.
Qed.

Lemma identified_empty_db : identified empty_db.
Proof. intros name. split; [apply Forall_nil|apply NoDup_nil]; done. Qed.

(** X23.  Identifiers stay distinct along any sequence of requests: if
    every stored document carries an identifier already handed out and no
    two documents of a collection share one, the same holds after the
    requests, whatever the store serves or fails; the identifier handed
    out next is then in use in no collection. *)
Theorem requests_keep_identifiers_distinct (cs : list Call)
    (d d' : pymongo.Database) :
  identified d ->
  after_all cs (Some d) = Some d' ->
  identified d'
  /\ ((pymongo.next_oid d' < bson.bound)%N ->
      forall name, next_oid_fresh name d' = true).
Proof.
  intros Hd Hafter.
  pose proof (World_evolves_after_all cs (Some d)) as Hev.
  rewrite Hafter in Hev. cbn in Hev.
  assert (Hd' : identified d') by by apply evolves_identified with d.
  split; [done|]. intros Hlt name. by apply identified_fresh.
Qed.

End Careers.

(** ** The statements on sample inputs *)

(** C3 on a store with one job: an id that is not an identifier, the
    identifier of no job, an identifier of eleven bytes written with two
    spaces, and the identifier of the job. *)
Lemma get_job_responses_sample :
  GET_careers_jobs_id sample_str "seo-strategist" None
  = (starlette.Error 400 (Text "Invalid job id"), None)
  /\ GET_careers_jobs_id sample_str "00000000000000000000002a" (Some one_job_db)
     = (starlette.Error 404 (Text "Job not found"),
        Some (pymongo.tick one_job_db))
  /\ GET_careers_jobs_id sample_str spaced_id (Some one_job_db)
     = (starlette.Error 404 (Text "Job not found"),
        Some (pymongo.tick one_job_db))
  /\ GET_careers_jobs_id sample_str "000000000000000000000000" (Some one_job_db)
     = (starlette.Content 200
          (serialize_doc sample_str (Some (stored 0%N (List.hd ∅ examples)))),
        Some (pymongo.tick one_job_db)).
Proof.
  split; [|split; [|split]].
  - apply (get_job_responses sample_str "seo-strategist" one_job_db);
      reflexivity.
  - destruct (proj2 (get_job_responses sample_str "00000000000000000000002a"
                       one_job_db eq_refl) eq_refl) as (oid & Hoid & Hget).
    injection Hoid as <-. exact Hget.
  - destruct (proj2 (get_job_responses sample_str spaced_id
                       one_job_db eq_refl) eq_refl) as (oid & Hoid & Hget).
    injection Hoid as <-. exact Hget.
  - destruct (proj2 (get_job_responses sample_str "000000000000000000000000"
                       one_job_db eq_refl) eq_refl) as (oid & Hoid & Hget).
    injection Hoid as <-. exact Hget.
Defined.

(** C4: a form that names the job of the store, the same form on a store
    without jobs, a form whose [job_id] is an identifier of eleven bytes
    written with two spaces, and a form without [job_id]. *)
Lemma apply_job_gate_sample :
  accepted sample_str 3 (stored 1%N (form_document cv_form)) one_job_db
    (POST_careers_apply sample_str strict multipart_request cv_form
       (Some one_job_db))
  /\ POST_careers_apply sample_str strict multipart_request cv_form
       (Some empty_db)
     = (starlette.Error 404 (Text "Job not found for application"),
        Some (pymongo.tick empty_db))
  /\ POST_careers_apply sample_str strict multipart_request spaced_form
       (Some one_job_db)
     = (starlette.Error 404 (Text "Job not found for application"),
        Some (pymongo.tick one_job_db))
  /\ accepted sample_str 2 (stored 0%N (form_document nameless_form)) empty_db
       (POST_careers_apply sample_str strict multipart_request nameless_form
          (Some empty_db)).
Proof.
  split; [|split; [|split]].
  - exact (apply_job_gate sample_str strict multipart_request cv_form
             one_job_db eq_refl eq_refl).
  - exact (apply_job_gate sample_str strict multipart_request cv_form
             empty_db eq_refl eq_refl).
  - exact (apply_job_gate sample_str strict multipart_request spaced_form
             one_job_db eq_refl eq_refl).
  - exact (apply_job_gate sample_str strict multipart_request nameless_form
             empty_db eq_refl eq_refl).
Defined.

(** C4 as stated fails on a JSON body without [job_id]: the submission
    is not accepted, the schema rejects it. *)
Lemma apply_json_missing_job_id_rejected :
  json_body_without_job_id !! "job_id" = None
  /\ POST_careers_apply sample_str strict
       (json_request (VDict json_body_without_job_id)) no_form (Some empty_db)
     = (starlette.Error 500 (StrOf ValidationError), Some empty_db)
  /\ ~ (exists body db',
          POST_careers_apply sample_str strict
            (json_request (VDict json_body_without_job_id)) no_form
            (Some empty_db)
          = (starlette.Content 201 body, db')).
Proof.
  assert (Hpost : POST_careers_apply sample_str strict
            (json_request (VDict json_body_without_job_id)) no_form
            (Some empty_db)
          = (starlette.Error 500 (StrOf ValidationError), Some empty_db))
    by reflexivity.
  split; [reflexivity|]. split; [exact Hpost|].
  intros (body & db' & Haccepted). rewrite Hpost in Haccepted. discriminate.
Qed.

(** C6 as stated fails when the store serves the insertion and fails on
    the read-back: the document is in the collection and the answer is a
    500. *)
Lemma apply_not_atomic :
  (POST_careers_apply sample_str strict multipart_request nameless_form
     (Some flaky_db)).1
  = starlette.Error 500 (StrOf StoreError)
  /\ documents "application"
       (POST_careers_apply sample_str strict multipart_request nameless_form
          (Some flaky_db)).2
     = [stored 0%N (form_document nameless_form)]
  /\ ~ atomic_submission sample_str strict multipart_request nameless_form
         (Some flaky_db).
Proof.
  assert (Hresp : (POST_careers_apply sample_str strict multipart_request
                     nameless_form (Some flaky_db)).1
                  = starlette.Error 500 (StrOf StoreError)) by reflexivity.
  assert (Hdocs : documents "application"
                    (POST_careers_apply sample_str strict multipart_request
                       nameless_form (Some flaky_db)).2
                  = [stored 0%N (form_document nameless_form)]) by reflexivity.
  split; [exact Hresp|]. split; [exact Hdocs|].
  unfold atomic_submission. cbv zeta. rewrite Hresp, Hdocs.
  intros [(doc & Hok & _)|(status & detail & _ & Hsame)]; [discriminate|].
  discriminate.
Qed.

(** C6, amended, on a store that serves the insertion and fails on the
    read-back, and on a store that serves every call. *)
Lemma apply_outcomes_sample :
  ((POST_careers_apply sample_str strict multipart_request nameless_form
      (Some flaky_db)).1
   = starlette.Error 500 (StrOf StoreError)
   /\ documents "application"
        (POST_careers_apply sample_str strict multipart_request nameless_form
           (Some flaky_db)).2
      = [stored 0%N (form_document nameless_form)])
  /\ ((POST_careers_apply sample_str strict multipart_request nameless_form
         (Some empty_db)).1
      = starlette.Content 201
          (serialize_doc sample_str
             (Some (stored 0%N (form_document nameless_form))))
      /\ documents "application"
           (POST_careers_apply sample_str strict multipart_request
              nameless_form (Some empty_db)).2
         = [stored 0%N (form_document nameless_form)]).
Proof.
  split.
  - refine (apply_outcomes sample_str strict multipart_request nameless_form
              (Some flaky_db) _).
    intros d Hd. injection Hd as <-. reflexivity.
  - refine (apply_outcomes sample_str strict multipart_request nameless_form
              (Some empty_db) _).
    intros d Hd. injection Hd as <-. reflexivity.
Defined.

(** C8 on a form with a two-byte CV for the job of the store. *)
Lemma apply_file_metadata_sample :
  exists doc d',
    POST_careers_apply sample_str strict multipart_request cv_form
      (Some one_job_db)
    = (starlette.Content 201 (serialize_doc sample_str (Some doc)), Some d')
    /\ pymongo.collection d' "application" = [doc]
    /\ (exists files meta,
          doc !! "files" = Some (VDict files)
          /\ files !! "cv" = Some (VDict meta)
          /\ meta !! "filename" = Some (VStr "cv.pdf")
          /\ meta !! "content_type" = Some (VStr "application/pdf")
          /\ meta !! "size" = Some (VInt 2)
          /\ dom meta = {["filename"; "content_type"; "size"]})
    /\ file_absent doc "portfolio_file"
    /\ has_bytes (VDict doc) = false.
Proof.
  destruct (apply_file_metadata sample_str strict multipart_request cv_form
              one_job_db eq_refl eq_refl eq_refl (or_intror eq_refl))
    as (doc & d' & Hpost & Hdocs & Hcv & _ & _ & Hpf & Hbytes).
  exists doc, d'. split; [exact Hpost|]. split; [exact Hdocs|].
  split; [exact (Hcv _ eq_refl)|]. split; [exact (Hpf eq_refl)|exact Hbytes].
Defined.

(** C9 on a JSON body and on a form, both without [consent], for the job
    of the store. *)
Lemma consent_defaults_sample :
  json_body !! "consent" = None
  /\ (exists doc d',
        POST_careers_apply sample_str strict (json_request (VDict json_body))
          no_form (Some one_job_db)
        = (starlette.Content 201 (serialize_doc sample_str (Some doc)), Some d')
        /\ pymongo.collection d' "application" = [doc]
        /\ doc !! "consent" = Some (VBool true))
  /\ form_consent cv_form = None
  /\ (exists doc d',
        POST_careers_apply sample_str strict multipart_request cv_form
          (Some one_job_db)
        = (starlette.Content 201 (serialize_doc sample_str (Some doc)), Some d')
        /\ pymongo.collection d' "application" = [doc]
        /\ doc !! "consent" = Some (VBool false)).
Proof.
  destruct (consent_defaults sample_str strict one_job_db eq_refl eq_refl)
    as [Hjson Hform].
  split; [reflexivity|]. split; [|split; [reflexivity|]].
  - exact (Hjson (json_request (VDict json_body)) no_form json_body
             json_application eq_refl eq_refl eq_refl eq_refl
             (or_intror eq_refl)).
  - exact (Hform multipart_request cv_form eq_refl eq_refl (or_intror eq_refl)).
Defined.

(** C10 on a form with no field at all, sent to the empty store. *)
Lemma form_payload_keys_sample :
  documents "application"
    (POST_careers_apply sample_str strict multipart_request no_form
       (Some empty_db)).2
  = [stored 0%N (form_document no_form)]
  /\ form_document no_form !! "job_id" = Some VNone
  /\ form_document no_form !! "name" = Some VNone
  /\ form_document no_form !! "email" = Some VNone
  /\ form_document no_form !! "phone" = Some VNone
  /\ form_document no_form !! "linkedin" = Some VNone
  /\ form_document no_form !! "portfolio" = Some VNone
  /\ form_document no_form !! "cover_letter" = Some VNone
  /\ form_document no_form !! "consent" = Some (VBool false).
Proof.
  destruct (form_payload_keys sample_str strict multipart_request no_form
              (Some empty_db) eq_refl) as [_ Hkeys].
  split; [reflexivity|exact Hkeys].
Defined.

(** C10 as stated fails on [consent]: left out of the form, it is stored
    as false, not as null. *)
Lemma form_consent_omitted_is_false :
  form_consent no_form = None
  /\ form_document no_form !! "consent" = Some (VBool false)
  /\ form_document no_form !! "consent" <> Some VNone.
Proof. split; [reflexivity|]. split; [reflexivity|discriminate]. Qed.

(** ** The further properties on sample inputs *)

(** X1 on a document with an ObjectId under [ref]. *)
Lemma serialize_doc_no_top_level_ObjectId_sample :
  exists d' v,
    serialize_doc sample_str (Some zero_id_doc) = Some d'
    /\ d' !! "ref" = Some v
    /\ is_ObjectId v = false.
Proof.
  eexists _, (VStr "000000000000000000000005").
  split; [reflexivity|]. split; [reflexivity|].
  exact (serialize_doc_no_top_level_ObjectId sample_str (Some zero_id_doc)
           _ "ref" _ eq_refl eq_refl).
Defined.

(** X3 on the same document. *)
Lemma serialize_doc_other_fields_sample :
  exists d',
    serialize_doc sample_str (Some zero_id_doc) = Some d'
    /\ d' !! "ref" = Some (VStr "000000000000000000000005").
Proof.
  destruct (serialize_doc_other_fields sample_str zero_id_doc "ref"
              ltac:(discriminate) ltac:(discriminate)) as (d' & Hser & Href).
  exists d'. split; [exact Hser|exact Href].
Defined.

(** X5 on an accepted application: the jobs are as they were. *)
Lemma apply_writes_applications_only_sample :
  documents "job"
    (POST_careers_apply sample_str strict multipart_request cv_form
       (Some one_job_db)).2
  = documents "job" (Some one_job_db).
Proof.
  exact (apply_writes_applications_only sample_str strict multipart_request
           cv_form (Some one_job_db) "job" ltac:(discriminate)).
Defined.

(** X6 without a database and on a store that fails its first call. *)
Lemma get_job_store_down_sample :
  GET_careers_jobs_id sample_str "000000000000000000000000" None
  = (starlette.Error 500 (StrOf NoDatabase), None)
  /\ GET_careers_jobs_id sample_str "000000000000000000000000" (Some down_db)
     = (starlette.Error 500 (StrOf StoreError), Some (pymongo.tick down_db)).
Proof.
  destruct (get_job_store_down sample_str "000000000000000000000000" eq_refl)
    as [Hnone Hdown].
  split; [exact Hnone|exact (Hdown down_db eq_refl)].
Defined.

(** X7 on a form with [job_id], sent as JSON and sent as multipart. *)
Lemma apply_job_id_field_selects_form_sample :
  POST_careers_apply sample_str strict (json_request (VDict json_body))
    cv_form (Some one_job_db)
  = POST_careers_apply sample_str strict multipart_request cv_form
      (Some one_job_db).
Proof.
  exact (apply_job_id_field_selects_form sample_str strict
           (json_request (VDict json_body)) multipart_request cv_form
           (Some one_job_db) (ex_intro _ _ eq_refl)).
Defined.

(** X8 on a form for the job of the store. *)
Lemma apply_response_body_sample :
  exists body,
    (POST_careers_apply sample_str strict multipart_request cv_form
       (Some one_job_db)).1
    = starlette.Content 201 (Some body)
    /\ body = <["id" := VStr "000000000000000000000001"]>
                (form_document cv_form)
    /\ body !! "_id" = None
    /\ dom body = dom (form_document cv_form) ∪ {["id"]}.
Proof.
  exact (apply_response_body sample_str strict multipart_request cv_form
           one_job_db _ _ eq_refl eq_refl eq_refl (or_intror eq_refl)).
Defined.

(** X9 on a JSON body with an [_id], [files] and [is_admin]. *)
Lemma apply_json_stores_declared_fields_sample :
  exists doc d',
    (POST_careers_apply sample_str strict
       (json_request (VDict json_body_with_more)) no_form
       (Some one_job_db)).2 = Some d'
    /\ pymongo.collection d' "application" = [doc]
    /\ doc !! "_id" = Some (VOid 1%N)
    /\ dom doc = Application_keys ∪ {["_id"]}.
Proof.
  exact (apply_json_stores_declared_fields sample_str strict
           (json_request (VDict json_body_with_more)) no_form one_job_db
           json_body_with_more json_application
           eq_refl eq_refl eq_refl eq_refl eq_refl (or_intror eq_refl)).
Defined.

(** X10 on the text "@ada". *)
Lemma apply_url_asymmetry_sample :
  POST_careers_apply sample_str strict
    (json_request (VDict json_body_with_handle)) no_form (Some empty_db)
  = (starlette.Error 500 (StrOf ValidationError), Some empty_db)
  /\ exists doc d',
       POST_careers_apply sample_str strict multipart_request handle_form
         (Some empty_db)
       = (starlette.Content 201 (serialize_doc sample_str (Some doc)), Some d')
       /\ pymongo.collection d' "application" = [doc]
       /\ doc !! "linkedin" = Some (VStr "@ada").
Proof.
  destruct (apply_url_asymmetry sample_str strict "@ada" eq_refl)
    as [Hjson Hform].
  split.
  - exact (Hjson (json_request (VDict json_body_with_handle))
             no_form json_body_with_handle "linkedin" (Some empty_db)
             eq_refl eq_refl (or_introl eq_refl) eq_refl).
  - exact (Hform multipart_request handle_form empty_db
             eq_refl eq_refl eq_refl eq_refl (or_introl eq_refl)).
Defined.

(** X15 on a job created in a store with one job. *)
Lemma create_job_then_get_job_sample :
  exists body d1,
    body = <["id" := VStr "000000000000000000000001"]>
             (schemas_Job.dict sample_job)
    /\ POST_careers_jobs sample_str sample_job (Some one_job_db)
       = (starlette.Content 201 (Some body), Some d1)
    /\ pymongo.collection d1 "job"
       = [stored 0%N (List.hd ∅ examples);
          stored 1%N (schemas_Job.dict sample_job)]
    /\ GET_careers_jobs_id sample_str "000000000000000000000001" (Some d1)
       = (starlette.Content 200 (Some body), Some (pymongo.tick d1)).
Proof.
  exact (create_job_then_get_job sample_str sample_job one_job_db
           eq_refl eq_refl).
Defined.

(** X16 on the same job and store. *)
Lemma create_job_then_list_jobs_sample :
  exists body d1 listed,
    POST_careers_jobs sample_str sample_job (Some one_job_db)
    = (starlette.Content 201 body, Some d1)
    /\ (GET_careers_jobs sample_str (Some one_job_db)).1
       = starlette.Content 200 listed
    /\ List.length listed = 1%nat
    /\ (GET_careers_jobs sample_str (Some d1)).1
       = starlette.Content 200 (listed ++ [body]).
Proof.
  exact (create_job_then_list_jobs sample_str sample_job one_job_db
           eq_refl eq_refl).
Defined.

(** X17 on a body with the required fields only. *)
Lemma Job_required_and_defaults_sample :
  schemas_Job.validate strict minimal_job_body = Some minimal_job
  /\ schemas_Job.responsibilities minimal_job = []
  /\ schemas_Job.remote minimal_job = false
  /\ dom (schemas_Job.dict minimal_job) = Job_keys.
Proof.
  destruct (Job_required_and_defaults strict minimal_job_body minimal_job
              eq_refl) as (_ & Hresp & _ & _ & Hremote & Hdom).
  split; [reflexivity|].
  split; [exact (Hresp eq_refl)|]. split; [exact (Hremote eq_refl)|exact Hdom].
Defined.

(** X18 on a user of 36 years and on one of 150. *)
Lemma User_age_bounds_sample :
  schemas_User.validate strict sample_int user_body = Some sample_user
  /\ (0 <= 36 <= 120)%Z
  /\ schemas_User.validate strict sample_int old_user_body = None.
Proof.
  split; [reflexivity|]. split.
  - exact (proj1 (User_age_bounds strict sample_int user_body)
             sample_user 36%Z eq_refl eq_refl).
  - exact (proj2 (User_age_bounds strict sample_int old_user_body)
             (VInt 150) 150%Z eq_refl ltac:(discriminate) eq_refl
             (or_intror eq_refl)).
Defined.

(** X21 on a store that fails its first call, with a message of 104
    characters, eleven of them of two or three bytes: what is reported
    has 50 characters, in 53 bytes. *)
Lemma test_database_truncates_error_sample :
  (exists response reported rest,
      (GET_test sample_exception_str sample_Database_name sample_environ
         (Some down_db)).1
      = starlette.Content 200 response
      /\ response !! "database"
         = Some (VStr (String.append "⚠️  Connected but Error: " reported))
      /\ sample_exception_str (Raised StoreError) = String.append reported rest
      /\ len reported = 50%nat
      /\ match rest with
         | String c _ => is_continuation c = false
         | EmptyString => True
         end)
  /\ exists response,
       (GET_test sample_exception_str sample_Database_name sample_environ
          (Some down_db)).1
       = starlette.Content 200 response
       /\ response !! "database"
          = Some (VStr "⚠️  Connected but Error: connexion refusée par l'hôte «db.example.org:27017")
       /\ String.length "connexion refusée par l'hôte «db.example.org:27017"
          = 53%nat.
Proof.
  split.
  - exact (test_database_truncates_error sample_exception_str
             sample_Database_name sample_environ down_db eq_refl).
  - eexists. split; [reflexivity|]. split; reflexivity.
Defined.

(** X23 on six requests to the empty store. *)
Lemma requests_keep_identifiers_distinct_sample :
  exists d',
    after_all sample_str strict sample_exception_str sample_Database_name
      sample_calls (Some empty_db) = Some d'
    /\ identified d'
    /\ next_oid_fresh "application" d' = true
    /\ next_oid_fresh "job" d' = true.
Proof.
  destruct (after_all sample_str strict sample_exception_str
              sample_Database_name sample_calls (Some empty_db))
    as [d'|] eqn:Hrun; [|vm_compute in Hrun; discriminate].
  destruct (requests_keep_identifiers_distinct sample_str strict
              sample_exception_str sample_Database_name sample_calls
              empty_db d' identified_empty_db Hrun) as [Hid Hfresh].
  assert (Hbound : (pymongo.next_oid d' < bson.bound)%N).
  { vm_compute in Hrun. injection Hrun as <-. reflexivity. }
  exists d'. split; [reflexivity|]. split; [exact Hid|].
  split; [exact (Hfresh Hbound "application")|exact (Hfresh Hbound "job")].
Defined.
